(** * Fraud-detection dashboard: streaming state, reconnection and display rules

    A shallow embedding of the dashboard component (message handler, reconnection
    logic, classification rule), of the table and alert-panel fraud predicates
    and of the chart's anomaly detection, followed by the properties that the
    specification states about them.

    JavaScript numbers are IEEE 754 binary64 values and are modelled by Rocq's
    primitive [float]s, whose operations are the same ones.  The two event
    counters of the statistics only ever hold small non-negative integers, on
    which binary64 arithmetic is exact (up to 2^53); they are modelled in [Z]. *)

From Stdlib Require Import ZArith Lia Bool List String Floats.
From Stdlib Require Import Sorting.Sorted Sorting.Permutation.
Import ListNotations.

(** ** JavaScript values and operators *)

Module JS.

(** A property of a decoded JSON object: missing ([undefined]), JSON [null],
    or a value of the declared type. *)
Inductive js (A : Type) : Type :=
| undefined : js A
| null : js A
| val (a : A) : js A.
Arguments undefined {A}.
Arguments null {A}.
Arguments val {A} a.

(** [ToBoolean]: what [if (x)], [!x], [x && y] and [x || y] test. *)
Class ToBoolean (A : Type) := to_boolean : A -> bool.

(** A number is falsy when it is [+0], [-0] or [NaN]. *)
#[export] Instance ToBoolean_number : ToBoolean float :=
  fun x => negb (is_zero x || is_nan x).

(** A string is falsy when it is empty. *)
#[export] Instance ToBoolean_string : ToBoolean string :=
  fun s => match s with EmptyString => false | String _ _ => true end.

#[export] Instance ToBoolean_js {A : Type} `{ToBoolean A} : ToBoolean (js A) :=
  fun v => match v with val a => to_boolean a | undefined | null => false end.

(** [ToNumber] on a numeric property. *)
Definition ToNumber (v : js float) : float :=
  match v with undefined => nan | null => 0%float | val x => x end.

(** [v === n] for a number literal [n]. *)
Definition strict_eq (v : js float) (n : float) : bool :=
  match v with val x => (x =? n)%float | undefined | null => false end.

(** [v !== undefined]. *)
Definition defined {A : Type} (v : js A) : bool :=
  match v with undefined => false | null | val _ => true end.

(** [v < n] and [v > n] for a number literal [n]. *)
Definition lt (v : js float) (n : float) : bool := (ToNumber v <? n)%float.
Definition gt (v : js float) (n : float) : bool := (n <? ToNumber v)%float.

(** [x || d] on numbers, and on a numeric property. *)
Definition lor (x d : float) : float := if to_boolean x then x else d.
Definition lor_js (v : js float) (d : float) : float :=
  match v with val x => lor x d | undefined | null => d end.

(** [array[index]]. *)
Definition array_get {A : Type} (array : list A) (index : nat) : js A :=
  match nth_error array index with Some a => val a | None => undefined end.

(** [array.filter((element, index) => ...)]. *)
Fixpoint filter_from {A : Type} (f : A -> nat -> bool) (array : list A) (index : nat) : list A :=
  match array with
  | [] => []
  | a :: rest =>
      if f a index then a :: filter_from f rest (S index) else filter_from f rest (S index)
  end.
Definition filter_indexed {A : Type} (f : A -> nat -> bool) (array : list A) : list A :=
  filter_from f array 0.

(** [array.map((element, index) => ...)]. *)
Fixpoint map_from {A B : Type} (f : A -> nat -> B) (array : list A) (index : nat) : list B :=
  match array with
  | [] => []
  | a :: rest => f a index :: map_from f rest (S index)
  end.
Definition map_indexed {A B : Type} (f : A -> nat -> B) (array : list A) : list B :=
  map_from f array 0.

(** [array.reduce(f, init)]. *)
Definition reduce {A B : Type} (f : B -> A -> B) (init : B) (array : list A) : B :=
  fold_left f array init.

(** [array.length] as a number. *)
Definition number_of_nat (n : nat) : float :=
  of_uint63 (Uint63Axioms.of_Z (Z.of_nat n)).

(** [array.slice(start, stop)] for indices that are not negative. *)
Definition slice {A : Type} (start stop : nat) (array : list A) : list A :=
  firstn (stop - start) (skipn start array).

(** [array.sort(compareFn)].  The sort is stable; with a consistent comparator
    its result is the one stable sorted arrangement of the array, which
    insertion from left to right computes: an element goes behind every
    element that the comparator does not put after it. *)
Fixpoint insert_sorted {A : Type} (compareFn : A -> A -> Z) (x : A) (sorted : list A) : list A :=
  match sorted with
  | [] => [x]
  | y :: rest =>
      if (compareFn y x <=? 0)%Z then y :: insert_sorted compareFn x rest
      else x :: y :: rest
  end.
Definition sort {A : Type} (compareFn : A -> A -> Z) (array : list A) : list A :=
  fold_left (fun sorted x => insert_sorted compareFn x sorted) array [].

(** [Math.sqrt] is the correctly rounded square root. *)
Definition Math_sqrt (x : float) : float := sqrt x.

(** Two readings of a number through its binary64 specification: it is not
    [NaN] and carries the sign [s]; it is at least zero. *)
Inductive signed_as (s : bool) : spec_float -> Prop :=
| sa_zero : signed_as s (S754_zero s)
| sa_inf : signed_as s (S754_infinity s)
| sa_fin m e : signed_as s (S754_finite s m e).

Definition SFnonneg (x : spec_float) : Prop := SFleb (S754_zero false) x = true.

(** A rank that orders the numbers as their comparison does: negative
    infinity, the negative numbers, the zeros, the positive numbers, positive
    infinity; triples are compared lexicographically. *)
Definition rank (x : spec_float) : Z * Z * Z :=
  match x with
  | S754_nan => (0, 0, 0)%Z
  | S754_infinity true => (-2, 0, 0)%Z
  | S754_finite true m e => (-1, - e, - Zpos m)%Z
  | S754_zero _ => (0, 0, 0)%Z
  | S754_finite false m e => (1, e, Zpos m)%Z
  | S754_infinity false => (2, 0, 0)%Z
  end.

Definition rank_le (r s : Z * Z * Z) : Prop :=
  let '(a, b, c) := r in
  let '(a', b', c') := s in
  (a < a' \/ (a = a' /\ (b < b' \/ (b = b' /\ c <= c'))))%Z.

Declare Scope js_scope.
Delimit Scope js_scope with js.
Notation "v === n" := (strict_eq v n) (at level 70, no associativity) : js_scope.

End JS.
Export JS.
Local Open Scope js_scope.

(** ** Data model *)

(** Modelled from the spec: [types/types.ts] is not among the sources; the
    fields are those of the message schema, each of them optional. *)
Record Prediction := {
  logistic : js float;
  random_forest : js float;
  xgboost : js float
}.

(** Modelled from the spec: [types/types.ts] is not among the sources; the
    fields are those of the message schema, each of them optional (the further
    features [V2], [V3], ... are read nowhere). *)
Record Transaction := {
  transaction_id : js string;
  Time : js float;
  Amount : js float;
  Class : js float;
  V1 : js float
}.

(** Objects are truthy. *)
#[export] Instance ToBoolean_Prediction : ToBoolean Prediction := fun _ => true.
#[export] Instance ToBoolean_Transaction : ToBoolean Transaction := fun _ => true.

(** The object that [JSON.parse(event.data)] yields. *)
Module Data.
Record t := {
  message : js string;
  predictions : js Prediction;
  prediction : js Prediction;
  transaction : js Transaction
}.
End Data.

(** ** The dashboard component: state and message handler *)

Module Dashboard.

Record Stats := {
  total : Z;
  flagged : Z;
  recentVolume : float
}.

(** The React state that the message handler updates. *)
Record State := {
  predictions : list Prediction;
  transactions : list Transaction;
  stats : Stats
}.

Definition initial : State :=
  {| predictions := []; transactions := [];
     stats := {| total := 0; flagged := 0; recentVolume := 0 |} |}.

(** State setters take an updater function, as the handler calls them. *)
Definition Update := State -> State.

Definition setPredictions (f : list Prediction -> list Prediction) : Update :=
  fun s => {| predictions := f (predictions s); transactions := transactions s; stats := stats s |}.

Definition setTransactions (f : list Transaction -> list Transaction) : Update :=
  fun s => {| predictions := predictions s; transactions := f (transactions s); stats := stats s |}.

Definition setStats (f : Stats -> Stats) : Update :=
  fun s => {| predictions := predictions s; transactions := transactions s; stats := f (stats s) |}.

Definition skip : Update := fun s => s.
Definition seq (u v : Update) : Update := fun s => v (u s).
Notation "u ;; v" := (seq u v) (at level 61, left associativity).

(** Helper function to determine if a transaction is flagged as fraud. *)
Definition isFlaggedAsFraud (prediction : js Prediction) : bool :=
  match prediction with
  | undefined | null => false
  | val p => (xgboost p === 1) || (random_forest p === 1) || (logistic p === 1)
  end.

(** [socket.onmessage], from the decoded object [data] on ([onmessage_event]
    below is the handler from the frame on).  A [val] in an object-typed
    field is a truthy value, [undefined] and [null] are falsy. *)
Definition onmessage (data : Data.t) : Update :=
  if to_boolean (Data.message data) then skip
  else
    match Data.predictions data, Data.transaction data with
    | val predictions, val transaction =>
        setPredictions (fun prev => prev ++ [predictions]) ;;
        setTransactions (fun prev => prev ++ [transaction]) ;;
        setStats (fun prevStats =>
          let isFraudulent := isFlaggedAsFraud (Data.predictions data) in
          {| total := total prevStats + 1;
             flagged := if isFraudulent then flagged prevStats + 1 else flagged prevStats;
             recentVolume :=
               (recentVolume prevStats + lor (ToNumber (Amount transaction) * 10) 0)%float |})
    | _, _ =>
        match Data.prediction data with
        | val prediction =>
            setPredictions (fun prev => prev ++ [prediction]) ;;
            match Data.transaction data with
            | val transaction =>
                setTransactions (fun prev => prev ++ [transaction]) ;;
                setStats (fun prevStats =>
                  let isFraudulent := isFlaggedAsFraud (Data.prediction data) in
                  {| total := total prevStats + 1;
                     flagged := if isFraudulent then flagged prevStats + 1 else flagged prevStats;
                     recentVolume :=
                       (recentVolume prevStats + lor_js (Amount transaction) 0)%float |})
            | undefined | null => skip
            end
        | undefined | null => skip
        end
    end.

(** Get high risk transactions: the first five transactions whose prediction,
    the entry of the prediction log at the same position, is flagged. *)
Definition highRiskTransactions (s : State) : list (Transaction * js Prediction) :=
  firstn 5
    (filter (fun item => isFlaggedAsFraud (snd item))
       (map_indexed (fun transaction index => (transaction, array_get (predictions s) index))
          (transactions s))).

(** The messages of a session, delivered one at a time, in order. *)
Definition deliver (messages : list Data.t) (s : State) : State :=
  fold_left (fun s data => onmessage data s) messages s.

(** The guards of the dispatch, as the handler tests them. *)
Definition is_status (data : Data.t) : bool := to_boolean (Data.message data).
Definition is_shape1 (data : Data.t) : bool :=
  to_boolean (Data.predictions data) && to_boolean (Data.transaction data).
Definition is_shape2 (data : Data.t) : bool := to_boolean (Data.prediction data).

(** A bare prediction: a message that reaches the second branch and carries no
    transaction. *)
Definition is_bare (data : Data.t) : bool :=
  negb (is_status data) && negb (is_shape1 data) && is_shape2 data
  && negb (to_boolean (Data.transaction data)).

(** The (transaction, prediction) pair that a message carries, when it is not a
    status message: [predictions] with a transaction, else [prediction] with
    one. *)
Definition event_of (data : Data.t) : list (Transaction * Prediction) :=
  if is_status data then []
  else
    match Data.predictions data, Data.prediction data, Data.transaction data with
    | val p, _, val t => [(t, p)]
    | _, val p, val t => [(t, p)]
    | _, _, _ => []
    end.

(** The amount of the message's transaction, when there is one, is a number
    that is not negative. *)
Definition amount_nonneg (data : Data.t) : bool :=
  match Data.transaction data with
  | val t => match Amount t with val a => (0 <=? a)%float | undefined | null => true end
  | undefined | null => true
  end.

(** What [JSON.parse(event.data)] makes of the text of a delivered frame: it
    throws on text that is not JSON, and else yields the JSON value [null], a
    number, string, boolean or array (none of which has any of the fields that
    the handler reads), or an object. *)
Inductive Parsed :=
| parse_error
| parsed_null
| parsed_other
| parsed_object (data : Data.t).

Inductive Exception := SyntaxError | TypeError.

(** What the handler reads in a value that is no object: every field is
    [undefined]. *)
Definition no_fields : Data.t :=
  {| Data.message := undefined; Data.predictions := undefined;
     Data.prediction := undefined; Data.transaction := undefined |}.

(** [socket.onmessage] from the frame on: the state it leaves and the
    exception it throws, if any.  The handler has no [try]: [JSON.parse]
    throws a [SyntaxError] before anything is read, and [data.message] throws
    a [TypeError] when [data] is [null]; no state setter has run by then. *)
Definition onmessage_event (frame : Parsed) (s : State) : State * option Exception :=
  match frame with
  | parse_error => (s, Some SyntaxError)
  | parsed_null => (s, Some TypeError)
  | parsed_other => (onmessage no_fields s, None)
  | parsed_object data => (onmessage data s, None)
  end.

(** The two shapes, on frames. *)
Definition frame_is_shape1 (frame : Parsed) : bool :=
  match frame with
  | parsed_object data => is_shape1 data
  | parse_error | parsed_null | parsed_other => false
  end.
Definition frame_is_shape2 (frame : Parsed) : bool :=
  match frame with
  | parsed_object data => is_shape2 data
  | parse_error | parsed_null | parsed_other => false
  end.

(** A message that changes the state: not a status message, and of one of the
    two shapes. *)
Definition accepted (data : Data.t) : bool :=
  negb (is_status data) && (is_shape1 data || is_shape2 data).

(** The metrics computed from the current state on every render (the constant
    accuracies of the three models, which are display text only, are left
    out). *)
Record Metrics := {
  totalTransactions : nat;
  fraudulentTransactions : nat
}.

Definition metrics (s : State) : Metrics :=
  {| totalTransactions := List.length (transactions s);
     fraudulentTransactions :=
       List.length
         (filter (fun p => (xgboost p === 1) || (random_forest p === 1) || (logistic p === 1))
            (predictions s)) |}.

End Dashboard.

(** ** Inputs for the examples: the scenarios of the specification *)

Module Scenario.

Definition amount (a : float) : Transaction :=
  {| transaction_id := undefined; Time := undefined; Amount := val a;
     Class := undefined; V1 := undefined |}.

Definition labelled_fraud : Transaction :=
  {| transaction_id := undefined; Time := undefined; Amount := val 50%float;
     Class := val 1%float; V1 := undefined |}.

Definition unpriced : Transaction :=
  {| transaction_id := undefined; Time := undefined; Amount := undefined;
     Class := undefined; V1 := undefined |}.

Definition large_amount : Transaction :=
  {| transaction_id := undefined; Time := undefined; Amount := val 2000%float;
     Class := val 0%float; V1 := val 0%float |}.

Definition votes (l r x : float) : Prediction :=
  {| logistic := val l; random_forest := val r; xgboost := val x |}.

(** [{ "message": "connected" }] *)
Definition status : Data.t :=
  {| Data.message := val "connected"%string; Data.predictions := undefined;
     Data.prediction := undefined; Data.transaction := undefined |}.

(** [{ "predictions": {"logistic":0,"random_forest":0,"xgboost":1},
       "transaction": {"Amount": 50} }] *)
Definition shape1 : Data.t :=
  {| Data.message := undefined; Data.predictions := val (votes 0 0 1);
     Data.prediction := undefined; Data.transaction := val (amount 50) |}.

(** [{ "prediction": {"logistic":0,"random_forest":0,"xgboost":0},
       "transaction": {"Amount": 200} }] *)
Definition shape2 : Data.t :=
  {| Data.message := undefined; Data.predictions := undefined;
     Data.prediction := val (votes 0 0 0); Data.transaction := val (amount 200) |}.

(** [{ "prediction": {"logistic":0,"random_forest":0,"xgboost":0} }] *)
Definition bare : Data.t :=
  {| Data.message := undefined; Data.predictions := undefined;
     Data.prediction := val (votes 0 0 0); Data.transaction := undefined |}.

(** The first scenario again, with a status text beside the payload. *)
Definition shape1_with_status (text : string) : Data.t :=
  {| Data.message := val text; Data.predictions := val (votes 0 0 1);
     Data.prediction := undefined; Data.transaction := val (amount 50) |}.

End Scenario.

(** ** The connection: handlers of the socket and of the reconnect timer *)

Module Connector.
Local Open Scope Z_scope.

Inductive ConnectionStatus := connecting | connected | disconnected.

(** [WebSocket.readyState] of the socket that the latest [connectToServer]
    created. *)
Inductive ReadyState := CONNECTING | OPEN | CLOSED.

Definition maxReconnectAttempts : Z := 5.

Record Connection := {
  connectionStatus : ConnectionStatus;
  reconnectAttempts : Z;
  socket : ReadyState;
  (** delay, in milliseconds, of the pending [setTimeout], if any *)
  timer : option Z
}.

Definition setConnectionStatus (st : ConnectionStatus) (c : Connection) : Connection :=
  {| connectionStatus := st; reconnectAttempts := reconnectAttempts c;
     socket := socket c; timer := timer c |}.

Definition setReconnectAttempts (n : Z) (c : Connection) : Connection :=
  {| connectionStatus := connectionStatus c; reconnectAttempts := n;
     socket := socket c; timer := timer c |}.

Definition setSocket (r : ReadyState) (c : Connection) : Connection :=
  {| connectionStatus := connectionStatus c; reconnectAttempts := reconnectAttempts c;
     socket := r; timer := timer c |}.

Definition setTimeout (timeout : Z) (c : Connection) : Connection :=
  {| connectionStatus := connectionStatus c; reconnectAttempts := reconnectAttempts c;
     socket := socket c; timer := Some timeout |}.

Definition clearTimer (c : Connection) : Connection :=
  {| connectionStatus := connectionStatus c; reconnectAttempts := reconnectAttempts c;
     socket := socket c; timer := None |}.

Definition connectToServer (c : Connection) : Connection :=
  setSocket CONNECTING (setConnectionStatus connecting c).

Definition onopen (c : Connection) : Connection :=
  setReconnectAttempts 0 (setConnectionStatus connected c).

Definition onerror (c : Connection) : Connection :=
  setConnectionStatus disconnected c.

Definition onclose (c : Connection) : Connection :=
  let c := setConnectionStatus disconnected c in
  if reconnectAttempts c <? maxReconnectAttempts then
    let timeout := 2 ^ reconnectAttempts c * 1000 in
    setTimeout timeout c
  else c.

(** The callback given to [setTimeout]. *)
Definition ontimeout (c : Connection) : Connection :=
  connectToServer (setReconnectAttempts (reconnectAttempts c + 1) c).

(** The effect on mount: the counter starts at zero and the first socket is
    created. *)
Definition mount : Connection :=
  connectToServer
    {| connectionStatus := connecting; reconnectAttempts := 0; socket := CLOSED; timer := None |}.

(** What the browser may do next: open a connecting socket, report an error on
    a socket that is not closed, close a socket that is not closed, fire the
    pending timer.  [step] runs the handler of the event, [None] when the event
    cannot occur. *)
Inductive Event := ev_open | ev_error | ev_close | ev_timeout.

Definition step (c : Connection) (e : Event) : option Connection :=
  match e with
  | ev_open =>
      match socket c with
      | CONNECTING => Some (onopen (setSocket OPEN c))
      | OPEN | CLOSED => None
      end
  | ev_error =>
      match socket c with
      | CONNECTING | OPEN => Some (onerror c)
      | CLOSED => None
      end
  | ev_close =>
      match socket c with
      | CONNECTING | OPEN => Some (onclose (setSocket CLOSED c))
      | CLOSED => None
      end
  | ev_timeout =>
      match timer c with
      | Some _ => Some (ontimeout (clearTimer c))
      | None => None
      end
  end.

Fixpoint run (c : Connection) (events : list Event) : option Connection :=
  match events with
  | [] => Some c
  | e :: rest =>
      match step c e with
      | Some c' => run c' rest
      | None => None
      end
  end.

Definition is_live (c : Connection) : bool :=
  match socket c with CONNECTING | OPEN => true | CLOSED => false end.

(** A connection drop: the socket closes, after an error event or without one. *)
Definition drop (with_error : bool) : list Event :=
  (if with_error then [ev_error] else []) ++ [ev_close].

(** Consecutive failed attempts: each one a drop followed by the reconnect
    timer firing, with no successful open in between. *)
Fixpoint failures (with_error : list bool) : list Event :=
  match with_error with
  | [] => []
  | b :: rest => drop b ++ [ev_timeout] ++ failures rest
  end.

(** What holds of the connection in every state that the handlers reach. *)
Definition consistent (c : Connection) : Prop :=
  0 <= reconnectAttempts c <= maxReconnectAttempts
  /\ (is_live c = true -> timer c = None)
  /\ (forall d, timer c = Some d ->
        reconnectAttempts c < maxReconnectAttempts /\ d = 2 ^ reconnectAttempts c * 1000)
  /\ (connectionStatus c = connected -> socket c = OPEN)
  /\ (connectionStatus c = connecting -> socket c = CONNECTING)
  /\ (socket c = CLOSED -> connectionStatus c = disconnected).

Definition is_open (e : Event) : bool :=
  match e with ev_open => true | ev_error | ev_close | ev_timeout => false end.
Definition is_timeout (e : Event) : bool :=
  match e with ev_timeout => true | ev_open | ev_error | ev_close => false end.

End Connector.

(** ** The table's fraud predicate *)

Module TransactionHistory.
Section Props.
Variable predictions : list Prediction.

(** Function to determine if a transaction is fraudulent based on the
    prediction.  [nth_error predictions index] is [Some] exactly when
    [index < predictions.length]. *)
Definition isFraudulent (transaction : Transaction) (index : nat) : bool :=
  if Class transaction === 1 then true
  else
    match nth_error predictions index with
    | Some prediction =>
        (logistic prediction === 1) || (random_forest prediction === 1)
        || (xgboost prediction === 1)
    | None =>
        (defined (V1 transaction) && lt (V1 transaction) (-3))
        || (defined (Amount transaction) && gt (Amount transaction) 1000)
    end.
End Props.

(** The sort and page state of the table. *)
Inductive SortField := sortTime | sortAmount.
Inductive SortDirection := asc | desc.

Record View := {
  sortField : SortField;
  sortDirection : SortDirection;
  currentPage : nat
}.

Definition initial_view : View :=
  {| sortField := sortTime; sortDirection := desc; currentPage := 1 |}.

Definition itemsPerPage : nat := 10.

(** [a[sortField]]. *)
Definition field (f : SortField) (t : Transaction) : js float :=
  match f with sortTime => Time t | sortAmount => Amount t end.

(** The comparator given to [sort]. *)
Definition compareFn (f : SortField) (d : SortDirection) (a b : Transaction) : Z :=
  let aValue := field f a in
  let bValue := field f b in
  if negb (defined aValue) && negb (defined bValue) then 0%Z
  else if negb (defined aValue) then match d with asc => (-1)%Z | desc => 1%Z end
  else if negb (defined bValue) then match d with asc => 1%Z | desc => (-1)%Z end
  else if (ToNumber aValue <? ToNumber bValue)%float
       then match d with asc => (-1)%Z | desc => 1%Z end
  else if (ToNumber bValue <? ToNumber aValue)%float
       then match d with asc => 1%Z | desc => (-1)%Z end
  else 0%Z.

Definition sortedTransactions (v : View) (transactions : list Transaction) : list Transaction :=
  sort (compareFn (sortField v) (sortDirection v)) transactions.

(** [Math.ceil(length / itemsPerPage)], on the natural numbers. *)
Definition totalPages (transactions : list Transaction) : nat :=
  (List.length transactions + (itemsPerPage - 1)) / itemsPerPage.

(** The rows of the current page.  (At a current page 0, which the buttons
    never produce, the source's [slice(-10, 0)] is empty, as is the slice
    here.) *)
Definition paginatedTransactions (v : View) (transactions : list Transaction) : list Transaction :=
  slice ((currentPage v - 1) * itemsPerPage) (currentPage v * itemsPerPage)
    (sortedTransactions v transactions).

Definition same_field (f g : SortField) : bool :=
  match f, g with sortTime, sortTime | sortAmount, sortAmount => true | _, _ => false end.

Definition handleSort (f : SortField) (v : View) : View :=
  if same_field f (sortField v) then
    {| sortField := sortField v;
       sortDirection := match sortDirection v with asc => desc | desc => asc end;
       currentPage := currentPage v |}
  else
    {| sortField := f; sortDirection := asc; currentPage := currentPage v |}.

(** The two page buttons: the click handler runs unless the button is
    disabled. *)
Definition click_previous (v : View) : View :=
  if (currentPage v =? 1)%nat then v
  else {| sortField := sortField v; sortDirection := sortDirection v;
          currentPage := Nat.max (currentPage v - 1) 1 |}.

Definition click_next (pages : nat) (v : View) : View :=
  if (currentPage v =? pages)%nat || (pages =? 0)%nat then v
  else {| sortField := sortField v; sortDirection := sortDirection v;
          currentPage := Nat.min (currentPage v + 1) pages |}.

(** The value that a transaction is sorted by is missing or a number. *)
Definition numeric_field (f : SortField) (t : Transaction) : Prop :=
  match field f t with val x => is_nan x = false | undefined | null => True end.

(** The order of the values of the sort column, a missing value before every
    other one, numbers by [<=] ([null] read as 0). *)
Definition value_le (u v : js float) : Prop :=
  match u, v with
  | undefined, _ => True
  | _, undefined => False
  | _, _ => (ToNumber u <=? ToNumber v)%float = true
  end.

(** Row [a] may stand before row [b]: ascending, the value of [a] is missing
    or at most that of [b]; descending, the value of [b] is missing or at most
    that of [a]. *)
Definition in_order (f : SortField) (d : SortDirection) (a b : Transaction) : Prop :=
  match d with
  | asc => value_le (field f a) (field f b)
  | desc => value_le (field f b) (field f a)
  end.

(** The view with another current page. *)
Definition at_page (p : nat) (v : View) : View :=
  {| sortField := sortField v; sortDirection := sortDirection v; currentPage := p |}.

(** The current page is one of the pages that the pager offers. *)
Definition valid_page (v : View) (transactions : list Transaction) : Prop :=
  (1 <= currentPage v <= Nat.max (totalPages transactions) 1)%nat.
End TransactionHistory.

(** ** The alert panel's membership test *)

Module FraudAlerts.
Section Props.
Variables (transactions : list Transaction) (predictions : list Prediction).

(** The callback of [transactions.filter]. *)
Definition is_alert (transaction : Transaction) (index : nat) : bool :=
  if Class transaction === 1 then true
  else if
    match nth_error predictions index with
    | Some prediction =>
        (logistic prediction === 1) || (random_forest prediction === 1)
        || (xgboost prediction === 1)
    | None => false
    end
  then true
  else
    let hasNegativeV1 := defined (V1 transaction) && lt (V1 transaction) (-3) in
    let hasLargeAmount := defined (Amount transaction) && gt (Amount transaction) 1000 in
    hasNegativeV1 || hasLargeAmount.

Definition fraudulentTransactions : list Transaction :=
  filter_indexed is_alert transactions.
End Props.

Section Reason.
Variable predictions : list Prediction.

(** Get fraud reason. *)
Definition getFraudReason (transaction : Transaction) (index : nat) : string :=
  if Class transaction === 1 then "Known fraudulent pattern"%string
  else
    let from_prediction :=
      match nth_error predictions index with
      | Some prediction =>
          if logistic prediction === 1 then Some "Logistic Regression detected fraud"%string
          else if random_forest prediction === 1 then Some "Random Forest detected fraud"%string
          else if xgboost prediction === 1 then Some "XGBoost detected fraud"%string
          else None
      | None => None
      end in
    match from_prediction with
    | Some reason => reason
    | None =>
        if defined (V1 transaction) && lt (V1 transaction) (-3)
        then "Suspicious transaction pattern (V1 anomaly)"%string
        else if defined (Amount transaction) && gt (Amount transaction) 1000
        then "Unusually large transaction amount"%string
        else "Multiple fraud indicators"%string
    end.
End Reason.
End FraudAlerts.

(** ** The chart's anomaly detection *)

Module RealTimeChart.
Section Chart.
(** [Math.pow] is specified up to the implementation's approximation; the
    development holds for every implementation of it. *)
Variable Math_pow : float -> float -> float.

Definition isNaN (x : float) : bool := is_nan x.

Definition identifyAnomalies (amounts : list float) : list bool :=
  if (List.length amounts =? 0)%nat then []
  else
    let validAmounts := filter (fun amount => negb (isNaN amount)) amounts in
    if (List.length validAmounts =? 0)%nat then map (fun _ => false) amounts
    else
      let mean :=
        (reduce (fun sum amount => sum + amount) 0 validAmounts
         / number_of_nat (List.length validAmounts))%float in
      let stdDev :=
        Math_sqrt
          (reduce (fun sum amount => sum + Math_pow (amount - mean) 2) 0 validAmounts
           / number_of_nat (List.length validAmounts))%float in
      let threshold := (mean + 2 * stdDev)%float in
      map (fun amount => (threshold <? amount)%float) amounts.

(** The amounts that the chart passes: [transactions.map(t => t.Amount || 0)]. *)
Definition amounts_of (transactions : list Transaction) : list float :=
  map (fun t => lor_js (Amount t) 0) transactions.

(** The statistics as the specification words them: mean and population
    standard deviation of a list, sums taken from left to right. *)
Definition sum (l : list float) : float := fold_left add l 0%float.

Definition mean (l : list float) : float :=
  (sum l / number_of_nat (List.length l))%float.

Definition population_stddev (l : list float) : float :=
  Math_sqrt
    (sum (map (fun a => Math_pow (a - mean l) 2) l) / number_of_nat (List.length l))%float.

(** [a] exceeds [mean + 2 * stddev] of the valid amounts. *)
Definition exceeds_threshold (valid : list float) (a : float) : bool :=
  (mean valid + 2 * population_stddev valid <? a)%float.

Definition numeric (amounts : list float) : list float :=
  filter (fun amount => negb (isNaN amount)) amounts.
End Chart.

(** Determine fraud status using predictions (not just Class). *)
Definition fraudStatus (transactions : list Transaction) (predictions : list Prediction)
  : list bool :=
  map_indexed
    (fun _ i =>
       match nth_error predictions i with
       | Some pred => (logistic pred === 1) || (random_forest pred === 1) || (xgboost pred === 1)
       | None => false
       end)
    transactions.

(** The fraud status that the tooltip of a bar prints. *)
Definition tooltip_fraudStatus
  (transactions : list Transaction) (predictions : list Prediction) (index : nat) : string :=
  match nth_error transactions index with
  | Some transaction =>
      match nth_error predictions index with
      | Some pred =>
          if (logistic pred === 1) || (random_forest pred === 1) || (xgboost pred === 1)
          then "Fraudulent"%string else "Legitimate"%string
      | None =>
          if Class transaction === 1 then "Fraudulent"%string else "Legitimate"%string
      end
  | None => "Unknown"%string
  end.

(** An implementation of [Math.pow] that is exact on the exponent 2, for
    running examples. *)
Definition pow_square (base exponent : float) : float :=
  if (exponent =? 2)%float then (base * base)%float else nan.
End RealTimeChart.

(** * Properties *)

(** ** Facts on binary64 arithmetic, from its specification *)

Module FloatFacts.
Local Open Scope Z_scope.

Lemma SFcompare_refl (x : spec_float) :
  x <> S754_nan -> SFcompare x x = Some Eq.
Proof.
  destruct x as [s|s| |s m e]; cbn; try congruence; intros _.
  - destruct s; reflexivity.
  - rewrite Z.compare_refl, Pos.compare_cont_refl. destruct s; reflexivity.
Qed.

Lemma is_nan_Prim2SF (x : float) :
  is_nan x = true <-> Prim2SF x = S754_nan.
Proof.
  unfold is_nan. rewrite eqb_spec. unfold SFeqb.
  destruct (Prim2SF x) as [s|s| |s m e] eqn:E.
  all: try (rewrite SFcompare_refl by congruence; cbn; split; congruence).
  cbn. tauto.
Qed.

Lemma eqb_refl (x : float) : is_nan x = false -> PrimFloat.eqb x x = true.
Proof. unfold is_nan. now destruct (PrimFloat.eqb x x). Qed.

Lemma ltb_nan_l (x : float) : PrimFloat.ltb nan x = false.
Proof. rewrite ltb_spec. reflexivity. Qed.

(** Shifting right keeps a mantissa non-negative. *)
Lemma shr_1_nonneg mrs : 0 <= shr_m mrs -> 0 <= shr_m (shr_1 mrs).
Proof.
  destruct mrs as [m r s]. cbn. intros H.
  destruct m as [|[p|p|]|p]; cbn; lia.
Qed.

Lemma iter_pos_shr_1_nonneg p : forall mrs,
  0 <= shr_m mrs -> 0 <= shr_m (iter_pos shr_1 p mrs).
Proof.
  induction p; intros mrs H; cbn; auto using shr_1_nonneg.
Qed.

Lemma shr_nonneg mrs e n : 0 <= shr_m mrs -> 0 <= shr_m (fst (shr mrs e n)).
Proof.
  intros H. destruct n; cbn; auto using iter_pos_shr_1_nonneg.
Qed.

Lemma shr_m_record_of_loc m l : shr_m (shr_record_of_loc m l) = m.
Proof. destruct l as [|[]]; reflexivity. Qed.

Lemma round_nearest_even_ge m l : m <= round_nearest_even m l.
Proof.
  destruct l as [|[]]; cbn; try lia. destruct (Z.even m); lia.
Qed.

Section Round.
Variables prec emax : Z.

Lemma shr_fexp_nonneg m e l : 0 <= m -> 0 <= shr_m (fst (shr_fexp prec emax m e l)).
Proof.
  intros H. unfold shr_fexp. apply shr_nonneg. now rewrite shr_m_record_of_loc.
Qed.

Lemma binary_round_aux_signed s m e l :
  0 <= m -> signed_as s (binary_round_aux prec emax s m e l).
Proof.
  intros H. unfold binary_round_aux.
  pose proof (shr_fexp_nonneg m e l H) as H1.
  destruct (shr_fexp prec emax m e l) as [mrs' e'] eqn:E1. cbn in H1.
  pose proof (round_nearest_even_ge (shr_m mrs') (loc_of_shr_record mrs')) as H2.
  set (m2 := round_nearest_even (shr_m mrs') (loc_of_shr_record mrs')) in *.
  assert (H3 : 0 <= m2) by lia.
  pose proof (shr_fexp_nonneg m2 e' loc_Exact H3) as H4.
  destruct (shr_fexp prec emax m2 e' loc_Exact) as [mrs'' e''] eqn:E2. cbn in H4.
  destruct (shr_m mrs'') as [|p|p]; try lia.
  - constructor.
  - destruct (e'' <=? emax - prec); constructor.
Qed.
End Round.

Lemma mul_finite_signed (x k : float) s mk ek :
  Prim2SF k = S754_finite false mk ek ->
  signed_as s (Prim2SF x) -> signed_as s (Prim2SF (x * k)).
Proof.
  intros Hk Hx. rewrite mul_spec, Hk. unfold SF64mul.
  destruct Hx; cbn; rewrite ?xorb_false_r; try constructor.
  apply binary_round_aux_signed. lia.
Qed.

Lemma not_nan_signed (x : spec_float) :
  x <> S754_nan -> exists s, signed_as s x.
Proof.
  destruct x as [s|s| |s m e]; try congruence; intros _; exists s; constructor.
Qed.

Lemma signed_not_nan s x : signed_as s x -> x <> S754_nan.
Proof. destruct 1; congruence. Qed.

Lemma leb_zero_signed (x : float) :
  (0 <=? x)%float = true <-> signed_as false (Prim2SF x) \/ Prim2SF x = S754_zero true.
Proof.
  rewrite leb_spec. change (Prim2SF 0) with (S754_zero false).
  destruct (Prim2SF x) as [[]|[]| |[] m e]; cbn; split; intros H;
    try discriminate; try (left; constructor); try (now right); try reflexivity.
  all: destruct H as [H|H]; inversion H.
Qed.

(** Number of binary digits, through [Z.log2]. *)
Lemma digits2_pos_size p : digits2_pos p = Pos.size p.
Proof. induction p; cbn; congruence. Qed.

Lemma Zdigits2_log2 p : Zdigits2 (Zpos p) = Z.log2 (Zpos p) + 1.
Proof.
  cbn. rewrite digits2_pos_size.
  destruct p; cbn; rewrite ?Pos2Z.inj_succ; rewrite ?Pos.add_1_r, ?Pos2Z.inj_succ; lia.
Qed.

Lemma pow2_digits_le m : 0 < m -> 2 ^ (Zdigits2 m - 1) <= m.
Proof.
  intros H. destruct m as [|p|p]; try lia.
  rewrite Zdigits2_log2. replace (Z.log2 (Z.pos p) + 1 - 1) with (Z.log2 (Z.pos p)) by lia.
  now apply Z.log2_spec.
Qed.

Lemma Zdigits2_mono a b : 0 < a <= b -> Zdigits2 a <= Zdigits2 b.
Proof.
  intros H. destruct a as [|p|p], b as [|q|q]; try lia.
  rewrite !Zdigits2_log2. apply Z.add_le_mono_r, Z.log2_le_mono. lia.
Qed.

Lemma Zdigits2_mul_pow2 p k :
  0 <= k -> Zdigits2 (Zpos p * 2 ^ k) = Zdigits2 (Zpos p) + k.
Proof.
  intros H.
  assert (Hp : 0 < Zpos p * 2 ^ k) by (apply Z.mul_pos_pos; [lia | now apply Z.pow_pos_nonneg]).
  destruct (Zpos p * 2 ^ k) as [|q|q] eqn:E; try lia.
  rewrite !Zdigits2_log2, <- E, Z.log2_mul_pow2; lia.
Qed.

(** [shr] divides the mantissa by a power of two. *)
Lemma shr_1_div2 mrs : 0 <= shr_m mrs -> shr_m (shr_1 mrs) = Z.shiftr (shr_m mrs) 1.
Proof.
  destruct mrs as [m r s]. cbn. intros H.
  destruct m as [|[p|p|]|p]; cbn; try reflexivity; lia.
Qed.

Lemma iter_pos_shr_1 p : forall mrs, 0 <= shr_m mrs ->
  shr_m (iter_pos shr_1 p mrs) = Z.shiftr (shr_m mrs) (Zpos p).
Proof.
  induction p as [p IH|p IH|]; intros mrs H; cbn [iter_pos].
  - rewrite !IH, shr_1_div2, !Z.shiftr_shiftr by auto using iter_pos_shr_1_nonneg, shr_1_nonneg with zarith.
    f_equal. lia.
  - rewrite !IH, !Z.shiftr_shiftr by auto using iter_pos_shr_1_nonneg with zarith.
    f_equal. lia.
  - now apply shr_1_div2.
Qed.

Lemma shr_spec mrs e n :
  0 <= shr_m mrs -> 0 <= n ->
  shr_m (fst (shr mrs e n)) = shr_m mrs / 2 ^ n /\ snd (shr mrs e n) = e + n.
Proof.
  intros Hm Hn. destruct n as [|p|p]; try lia; cbn [shr fst snd].
  - rewrite Z.div_1_r. lia.
  - rewrite iter_pos_shr_1, Z.shiftr_div_pow2 by lia. lia.
Qed.

Lemma shr_neg mrs e n : n <= 0 -> shr mrs e n = (mrs, e).
Proof. destruct n; try reflexivity; lia. Qed.

Lemma iter_xO m d : Zpos (Pos.iter xO m d) = Zpos m * 2 ^ Zpos d.
Proof.
  induction d using Pos.peano_ind.
  - cbn. lia.
  - rewrite Pos.iter_succ, Pos2Z.inj_succ, Z.pow_succ_r by lia.
    rewrite Pos2Z.inj_xO, IHd. lia.
Qed.

Lemma shl_align_fst mx ex ez :
  ez <= ex -> Zpos (fst (shl_align mx ex ez)) = Zpos mx * 2 ^ (ex - ez).
Proof.
  intros H. unfold shl_align.
  destruct (ez - ex) as [|d|d] eqn:E; cbn [fst]; try lia.
  - replace (ex - ez) with 0 by lia. lia.
  - rewrite iter_xO. f_equal. f_equal. lia.
Qed.

Lemma shl_align_id m e e' : e <= e' -> shl_align m e e' = (m, e).
Proof. intros H. unfold shl_align. destruct (e' - e) eqn:E; try reflexivity; lia. Qed.

Section Binary64.
Let prec := FloatOps.prec.
Let emax := FloatOps.emax.
Let fexp := SpecFloat.fexp prec emax.
Let emin := SpecFloat.emin prec emax.

Lemma fexp_eq e : fexp e = Z.max (e - 53) (-1074).
Proof. reflexivity. Qed.

(** Rounding a positive mantissa never goes below its truncation. *)
Lemma binary_round_aux_lower (M ez : Z) :
  0 < M ->
  ez <= fexp (Zdigits2 M + ez) < Zdigits2 M + ez ->
  binary_round_aux prec emax false M ez loc_Exact = S754_infinity false \/
  exists m e, binary_round_aux prec emax false M ez loc_Exact = S754_finite false m e /\
    (fexp (Zdigits2 M + ez) < e \/
     (e = fexp (Zdigits2 M + ez) /\ M / 2 ^ (fexp (Zdigits2 M + ez) - ez) <= Zpos m)).
Proof.
  intros HM HE. set (E := fexp (Zdigits2 M + ez)) in *.
  unfold binary_round_aux, shr_fexp. fold fexp. fold E.
  destruct (shr_spec (shr_record_of_loc M loc_Exact) ez (E - ez)) as [Hm1 He1];
    [cbn; lia | lia |].
  destruct (shr (shr_record_of_loc M loc_Exact) ez (E - ez)) as [mrs1 e1].
  cbn [fst snd] in Hm1, He1. cbn [shr_record_of_loc shr_m] in Hm1.
  assert (He1' : e1 = E) by lia. clear He1. subst e1.
  assert (H1 : 1 <= shr_m mrs1).
  { rewrite Hm1. apply Z.div_le_lower_bound; [apply Z.pow_pos_nonneg; lia|].
    rewrite Z.mul_1_r. etransitivity; [|apply pow2_digits_le; lia].
    apply Z.pow_le_mono_r; lia. }
  pose proof (round_nearest_even_ge (shr_m mrs1) (loc_of_shr_record mrs1)) as H2.
  set (m2 := round_nearest_even (shr_m mrs1) (loc_of_shr_record mrs1)) in *.
  set (n2 := fexp (Zdigits2 m2 + E) - E).
  destruct (Z_le_gt_dec n2 0) as [Hn2|Hn2].
  - rewrite shr_neg by assumption. cbn [shr_record_of_loc shr_m].
    destruct m2 as [|p|p] eqn:Em2; try lia.
    destruct (E <=? emax - prec); [right|now left].
    exists p, E. split; [reflexivity|]. right. split; [reflexivity|]. lia.
  - destruct (shr_spec (shr_record_of_loc m2 loc_Exact) E n2) as [Hm3 He3];
      [cbn; lia | lia |].
    destruct (shr (shr_record_of_loc m2 loc_Exact) E n2) as [mrs3 e3].
    cbn [fst snd] in Hm3, He3. cbn [shr_record_of_loc shr_m] in Hm3.
    assert (HEmin : -1074 <= E) by (unfold E; rewrite fexp_eq; lia).
    assert (Hn2' : n2 = Zdigits2 m2 - 53).
    { unfold n2 in *. rewrite fexp_eq in *. lia. }
    assert (H3 : 1 <= shr_m mrs3).
    { rewrite Hm3. apply Z.div_le_lower_bound; [apply Z.pow_pos_nonneg; lia|].
      rewrite Z.mul_1_r. etransitivity; [|apply pow2_digits_le; lia].
      apply Z.pow_le_mono_r; lia. }
    destruct (shr_m mrs3) as [|p|p]; try lia.
    destruct (e3 <=? emax - prec); [right|now left].
    exists p, e3. split; [reflexivity|]. left. lia.
Qed.

Lemma bounded_canonical m e :
  bounded prec emax m e = true -> fexp (Zdigits2 (Zpos m) + e) = e.
Proof.
  unfold bounded, canonical_mantissa. intros H.
  apply andb_prop in H. destruct H as [H _]. now apply Z.eqb_eq in H.
Qed.

Lemma SFleb_finite_pos m1 e1 m2 e2 :
  e1 < e2 \/ (e1 = e2 /\ Zpos m1 <= Zpos m2) ->
  SFleb (S754_finite false m1 e1) (S754_finite false m2 e2) = true.
Proof.
  unfold SFleb, SFcompare. intros [H|[H1 H2]].
  - apply Z.compare_lt_iff in H. now rewrite H.
  - subst. rewrite Z.compare_refl. fold (Pos.compare m1 m2).
    destruct (Pos.compare_spec m1 m2); try reflexivity. lia.
Qed.

(** Adding two positive finite numbers does not go below the first. *)
Lemma SFadd_finite_lower mx ex mc ec :
  bounded prec emax mx ex = true -> bounded prec emax mc ec = true ->
  let r := SFadd prec emax (S754_finite false mx ex) (S754_finite false mc ec) in
  r = S754_infinity false \/
  exists m e, r = S754_finite false m e /\ (ex < e \/ (e = ex /\ Zpos mx <= Zpos m)).
Proof.
  intros Bx Bc. cbn zeta. unfold SFadd. cbn [cond_Zopp].
  set (ez := Z.min ex ec).
  pose proof (shl_align_fst mx ex ez ltac:(lia)) as Ha.
  pose proof (shl_align_fst mc ec ez ltac:(lia)) as Hb.
  set (a := fst (shl_align mx ex ez)) in *.
  set (b := fst (shl_align mc ec ez)) in *.
  change (Zpos a + Zpos b) with (Zpos (a + b)).
  cbn [binary_normalize]. unfold binary_round.
  pose proof (bounded_canonical _ _ Bx) as Cx.
  assert (Hdig : Zdigits2 (Zpos mx) + ex <= Zdigits2 (Zpos (a + b)) + ez).
  { replace (Zdigits2 (Zpos mx) + ex) with (Zdigits2 (Zpos mx * 2 ^ (ex - ez)) + ez)
      by (rewrite Zdigits2_mul_pow2; lia).
    apply Z.add_le_mono_r, Zdigits2_mono. lia. }
  assert (HE : ex <= fexp (Zdigits2 (Zpos (a + b)) + ez)).
  { rewrite <- Cx at 1. rewrite !fexp_eq. lia. }
  assert (HE' : fexp (Zdigits2 (Zpos (a + b)) + ez) < Zdigits2 (Zpos (a + b)) + ez).
  { rewrite fexp_eq in *. cbn [Zdigits2] in *. lia. }
  change (Zpos (digits2_pos (a + b))) with (Zdigits2 (Zpos (a + b))).
  fold fexp. rewrite shl_align_id by lia.
  destruct (binary_round_aux_lower (Zpos (a + b)) ez) as [H|(m & e & H & Hme)];
    [lia | lia | now left | right].
  exists m, e. split; [assumption|].
  set (E := fexp (Zdigits2 (Zpos (a + b)) + ez)) in *.
  destruct Hme as [Hme|[He Hm]]; [left; lia|].
  destruct (Z.eq_dec E ex) as [HEx|HEx]; [right|left; lia].
  split; [lia|]. etransitivity; [|exact Hm].
  rewrite HEx. apply Z.div_le_lower_bound; [apply Z.pow_pos_nonneg; lia|].
  rewrite Pos2Z.inj_add, Ha. nia.
Qed.

Lemma SFadd_nonneg_mono x c :
  valid_binary x = true -> valid_binary c = true ->
  SFnonneg x -> SFnonneg c ->
  SFleb x (SFadd prec emax x c) = true /\ SFnonneg (SFadd prec emax x c).
Proof.
  unfold SFnonneg.
  destruct x as [sx|[]| |[] mx ex]; try discriminate;
  destruct c as [sc|[]| |[] mc ec]; try discriminate; intros Vx Vc _ _.
  - destruct sx, sc; split; reflexivity.
  - destruct sx; split; reflexivity.
  - split; [destruct sx; reflexivity|reflexivity].
  - split; reflexivity.
  - split; reflexivity.
  - split; reflexivity.
  - split; [|reflexivity]. apply SFleb_finite_pos. right. split; lia.
  - split; reflexivity.
  - destruct (SFadd_finite_lower mx ex mc ec Vx Vc) as [H|(m & e & H & Hme)];
      cbn zeta in H; rewrite H; split; try reflexivity.
    apply SFleb_finite_pos. destruct Hme as [?|[? ?]]; [left|right]; lia.
Qed.
End Binary64.

Lemma add_nonneg_mono (x c : float) :
  (0 <=? x)%float = true -> (0 <=? c)%float = true ->
  (x <=? x + c)%float = true /\ (0 <=? x + c)%float = true.
Proof.
  rewrite !leb_spec, add_spec. intros Hx Hc.
  apply SFadd_nonneg_mono; auto using Prim2SF_valid.
Qed.
Lemma SFeqb_finite_eq x m e :
  SFeqb x (S754_finite false m e) = true -> x = S754_finite false m e.
Proof.
  unfold SFeqb, SFcompare.
  destruct x as [s|[]| |[] m' e']; try discriminate.
  destruct (Z.compare_spec e' e); try discriminate.
  destruct (Pos.compare_cont Eq m' m) eqn:E; try discriminate.
  apply Pos.compare_eq in E. intros _. now subst.
Qed.

Lemma eqb_one (x : float) : (x =? 1)%float = true <-> x = 1%float.
Proof.
  split; [|intros ->; reflexivity].
  rewrite eqb_spec. intros H. apply Prim2SF_inj.
  assert (E1 : Prim2SF 1 = S754_finite false 4503599627370496 (-52)) by (vm_compute; reflexivity).
  rewrite E1 in *. now apply SFeqb_finite_eq.
Qed.

Lemma eqb_zero_l (x : float) : is_zero x = true -> (0 =? x)%float = true.
Proof.
  unfold is_zero. rewrite !eqb_spec. change (Prim2SF zero) with (S754_zero false).
  change (Prim2SF 0) with (S754_zero false).
  destruct (Prim2SF x) as [s|[]| |[] m e]; cbn; congruence.
Qed.

Lemma mul_finite_zero (x k : float) s mk ek :
  Prim2SF k = S754_finite false mk ek ->
  Prim2SF x = S754_zero s -> Prim2SF (x * k) = S754_zero s.
Proof.
  intros Hk Hx. rewrite mul_spec, Hk, Hx. cbn. now rewrite xorb_false_r.
Qed.

Lemma Prim2SF_10 : Prim2SF 10 = S754_finite false 5629499534213120 (-49).
Proof. vm_compute. reflexivity. Qed.

Lemma mul10_not_nan (a : float) : is_nan a = false -> is_nan (a * 10) = false.
Proof.
  intros H. destruct (is_nan (a * 10)) eqn:E; [|reflexivity].
  apply is_nan_Prim2SF in E.
  destruct (not_nan_signed (Prim2SF a)) as [s Hs].
  - intros N. apply is_nan_Prim2SF in N. congruence.
  - apply (mul_finite_signed a 10 s _ _ Prim2SF_10) in Hs.
    now apply signed_not_nan in Hs.
Qed.

Lemma mul10_nonneg (a : float) : (0 <=? a)%float = true -> (0 <=? a * 10)%float = true.
Proof.
  rewrite !leb_zero_signed. intros [H|H].
  - left. exact (mul_finite_signed a 10 false _ _ Prim2SF_10 H).
  - right. exact (mul_finite_zero a 10 true _ _ Prim2SF_10 H).
Qed.
End FloatFacts.

(** ** The [||] operator on amounts *)

Section Lor.
Import FloatFacts.

Lemma lor_numeric (x : float) : is_nan x = false -> (lor x 0 =? x)%float = true.
Proof.
  intros N. unfold lor, to_boolean, ToBoolean_number. rewrite N, orb_false_r.
  destruct (is_zero x) eqn:Z; cbn.
  - now apply eqb_zero_l.
  - now apply eqb_refl.
Qed.

Lemma lor_nan (x : float) : is_nan x = true -> lor x 0 = 0%float.
Proof.
  intros N. unfold lor, to_boolean, ToBoolean_number. now rewrite N, orb_true_r.
Qed.

Lemma lor_nonneg (x : float) :
  (0 <=? x)%float = true \/ is_nan x = true -> (0 <=? lor x 0)%float = true.
Proof.
  intros H. unfold lor. destruct (to_boolean x) eqn:T; [|reflexivity].
  destruct H as [H|H]; [assumption|].
  unfold to_boolean, ToBoolean_number in T. rewrite H, orb_true_r in T. discriminate.
Qed.

(** What [Amount * 10 || 0] contributes. *)
Lemma shape1_volume (v : js float) :
  match v with
  | val a => is_nan a = false -> (lor (ToNumber v * 10) 0 =? a * 10)%float = true
  | undefined | null => lor (ToNumber v * 10) 0 = 0%float
  end.
Proof.
  destruct v as [| |a]; try reflexivity.
  intros N. cbn [ToNumber]. now apply lor_numeric, mul10_not_nan.
Qed.

(** What [Amount || 0] contributes. *)
Lemma shape2_volume (v : js float) :
  match v with
  | val a => is_nan a = false -> (lor_js v 0 =? a)%float = true
  | undefined | null => lor_js v 0 = 0%float
  end.
Proof.
  destruct v as [| |a]; try reflexivity. cbn [lor_js]. apply lor_numeric.
Qed.

Lemma shape1_volume_nonneg (v : js float) :
  match v with val a => (0 <=? a)%float = true | undefined | null => True end ->
  (0 <=? lor (ToNumber v * 10) 0)%float = true.
Proof.
  destruct v as [| |a]; try reflexivity.
  intros H. cbn [ToNumber]. apply lor_nonneg. left. now apply mul10_nonneg.
Qed.

Lemma shape2_volume_nonneg (v : js float) :
  match v with val a => (0 <=? a)%float = true | undefined | null => True end ->
  (0 <=? lor_js v 0)%float = true.
Proof.
  destruct v as [| |a]; try reflexivity.
  intros H. cbn [lor_js]. apply lor_nonneg. now left.
Qed.
End Lor.

(** ** The classification rule *)

Section Classification.
Import Dashboard.

Lemma strict_eq_one (v : js float) : (v === 1) = true <-> v = val 1%float.
Proof.
  destruct v as [| |x]; cbn; try (split; discriminate).
  rewrite FloatFacts.eqb_one. split; [now intros -> | congruence].
Qed.

Lemma In_firstn {A : Type} (n : nat) : forall (l : list A) (a : A),
  In a (firstn n l) -> In a l.
Proof.
  induction n as [|n IH]; intros [|x l] a; cbn; try tauto.
  intros [H|H]; auto.
Qed.

(** The high-risk list holds only flagged items: a transaction beyond the end
    of the prediction log, whose prediction is [undefined], is never listed. *)
Lemma highRiskTransactions_flagged (s : State) (item : Transaction * js Prediction) :
  In item (highRiskTransactions s) ->
  exists p, snd item = val p /\ isFlaggedAsFraud (val p) = true.
Proof.
  unfold highRiskTransactions. intros H. apply In_firstn, filter_In in H.
  destruct H as [_ H]. destruct (snd item) as [| |p]; try discriminate. eauto.
Qed.

(** C1. The rule answers true exactly when one of the three model flags is the
    number 1; it is the disjunction of the three tests; and it answers false
    on a prediction that is missing or null. *)
Theorem isFlaggedAsFraud_any_model :
  (forall p : Prediction,
      isFlaggedAsFraud (val p) = true <->
      logistic p = val 1%float \/ random_forest p = val 1%float \/ xgboost p = val 1%float)
  /\ (forall p : Prediction,
      isFlaggedAsFraud (val p) =
      (logistic p === 1) || (random_forest p === 1) || (xgboost p === 1))
  /\ isFlaggedAsFraud undefined = false
  /\ isFlaggedAsFraud null = false.
Proof.
  split; [|split; [|split; reflexivity]]; intros p; cbn.
  - rewrite !orb_true_iff, !strict_eq_one. tauto.
  - destruct (logistic p === 1), (random_forest p === 1), (xgboost p === 1); reflexivity.
Qed.
End Classification.

(** ** The message handler *)

Section Handler.
Import Dashboard.

(** Case analysis along the dispatch of the handler: the status check, then
    the three payload fields. *)
Ltac dispatch data :=
  destruct (to_boolean (Data.message data));
  [| destruct (Data.predictions data) as [| |?q], (Data.transaction data) as [| |?t],
       (Data.prediction data) as [| |?p] ].

(** The guards of the dispatch, on object-typed fields. *)
Lemma is_shape1_true (data : Data.t) :
  is_shape1 data = true
  <-> exists p t, Data.predictions data = val p /\ Data.transaction data = val t.
Proof.
  unfold is_shape1.
  destruct (Data.predictions data) as [| |p], (Data.transaction data) as [| |t]; cbn;
    split; try discriminate; try (intros (p' & t' & H1 & H2); discriminate); eauto.
Qed.

Lemma is_shape2_true (data : Data.t) :
  is_shape2 data = true <-> exists p, Data.prediction data = val p.
Proof.
  unfold is_shape2.
  destruct (Data.prediction data) as [| |p]; cbn;
    split; try discriminate; try (intros (p' & H); discriminate); eauto.
Qed.

Example scenario_status :
  onmessage Scenario.status initial = initial.
Proof. reflexivity. Qed.

Example scenario_shape1 :
  stats (onmessage Scenario.shape1 initial)
  = {| total := 1; flagged := 1; recentVolume := 500 |}.
Proof. reflexivity. Qed.

Example scenario_shape2_twice :
  stats (deliver [Scenario.shape2; Scenario.shape2] initial)
  = {| total := 2; flagged := 0; recentVolume := 400 |}.
Proof. reflexivity. Qed.

(** C2. An accepted message with [predictions] and [transaction] appends one
    entry to each log, adds one to [total], adds one to [flagged] exactly when
    the classification rule holds of the new prediction, and adds to
    [recentVolume] a contribution equal to ten times the amount, zero when the
    amount is missing. *)
Theorem shape1_message_effect
  (s : State) (data : Data.t) (p : Prediction) (t : Transaction) :
  is_status data = false ->
  Data.predictions data = val p ->
  Data.transaction data = val t ->
  let s' := onmessage data s in
  predictions s' = predictions s ++ [p]
  /\ transactions s' = transactions s ++ [t]
  /\ total (stats s') = (total (stats s) + 1)%Z
  /\ flagged (stats s')
     = (flagged (stats s) + if isFlaggedAsFraud (val p) then 1 else 0)%Z
  /\ exists c : float,
       recentVolume (stats s') = (recentVolume (stats s) + c)%float
       /\ match Amount t with
          | val a => is_nan a = false -> (c =? a * 10)%float = true
          | undefined | null => c = 0%float
          end.
Proof.
  unfold is_status. intros M P T. cbn zeta. unfold onmessage. rewrite M, P, T.
  cbn -[isFlaggedAsFraud Z.add]. repeat split.
  - destruct (isFlaggedAsFraud (val p)); lia.
  - eexists. split; [reflexivity|]. apply shape1_volume.
Qed.

Lemma shape1_message_effect_witness :
  let s' := onmessage Scenario.shape1 initial in
  predictions s' = predictions initial ++ [Scenario.votes 0 0 1]
  /\ transactions s' = transactions initial ++ [Scenario.amount 50]
  /\ total (stats s') = (total (stats initial) + 1)%Z
  /\ flagged (stats s')
     = (flagged (stats initial)
        + if isFlaggedAsFraud (val (Scenario.votes 0 0 1)) then 1 else 0)%Z
  /\ exists c : float,
       recentVolume (stats s') = (recentVolume (stats initial) + c)%float
       /\ (is_nan 50 = false -> (c =? 50 * 10)%float = true).
Proof.
  exact (shape1_message_effect initial Scenario.shape1 (Scenario.votes 0 0 1)
           (Scenario.amount 50) eq_refl eq_refl eq_refl).
Defined.

(** C3. A message that reaches the second branch always appends its
    [prediction]; with a transaction it appends the transaction, adds one to
    [total], adds one to [flagged] exactly when the rule holds, and adds to
    [recentVolume] a contribution equal to the amount itself, zero when the
    amount is missing; without a transaction the transaction log and the
    statistics stay as they are. *)
Theorem shape2_message_effect (s : State) (data : Data.t) (p : Prediction) :
  is_status data = false ->
  is_shape1 data = false ->
  Data.prediction data = val p ->
  let s' := onmessage data s in
  predictions s' = predictions s ++ [p]
  /\ match Data.transaction data with
     | val t =>
         transactions s' = transactions s ++ [t]
         /\ total (stats s') = (total (stats s) + 1)%Z
         /\ flagged (stats s')
            = (flagged (stats s) + if isFlaggedAsFraud (val p) then 1 else 0)%Z
         /\ exists c : float,
              recentVolume (stats s') = (recentVolume (stats s) + c)%float
              /\ match Amount t with
                 | val a => is_nan a = false -> (c =? a)%float = true
                 | undefined | null => c = 0%float
                 end
     | undefined | null =>
         transactions s' = transactions s /\ stats s' = stats s
     end.
Proof.
  unfold is_status, is_shape1. intros M S1 P. cbn zeta. unfold onmessage.
  rewrite M, P.
  destruct (Data.predictions data) as [| |q], (Data.transaction data) as [| |t];
    try discriminate S1; cbn -[isFlaggedAsFraud Z.add]; repeat split.
  all: try (destruct (isFlaggedAsFraud (val p)); lia).
  all: eexists; split; [reflexivity|]; apply shape2_volume.
Qed.

Lemma shape2_message_effect_witness :
  let s' := onmessage Scenario.bare initial in
  predictions s' = predictions initial ++ [Scenario.votes 0 0 0]
  /\ transactions s' = transactions initial /\ stats s' = stats initial.
Proof.
  exact (shape2_message_effect initial Scenario.bare (Scenario.votes 0 0 0)
           eq_refl eq_refl eq_refl).
Defined.

(** A decoded object that matches neither shape, a pure status message among
    them, leaves both logs and the statistics as they are. *)
Lemma unmatched_message_dropped (s : State) (data : Data.t) :
  is_shape1 data = false ->
  is_shape2 data = false ->
  onmessage data s = s.
Proof.
  unfold is_shape1, is_shape2, onmessage. intros S1 S2.
  dispatch data; try discriminate; reflexivity.
Qed.

(** C8 fails as stated: the frame [null] and a frame that is not JSON match
    neither shape, and the handler does not drop them silently but throws, a
    [TypeError] and a [SyntaxError]; the state is the one before. *)
Lemma unmatched_frame_raises :
  frame_is_shape1 parsed_null = false
  /\ frame_is_shape2 parsed_null = false
  /\ onmessage_event parsed_null initial = (initial, Some TypeError)
  /\ frame_is_shape1 parse_error = false
  /\ frame_is_shape2 parse_error = false
  /\ onmessage_event parse_error initial = (initial, Some SyntaxError).
Proof. repeat split. Qed.

(** C8, amended.  A frame that matches neither shape leaves both logs and the
    statistics as they are.  It is dropped without an exception when it
    decodes to an object (a pure status message among them), a number, a
    string, a boolean or an array; the handler throws a [SyntaxError] when the
    frame is not JSON and a [TypeError] when it is the value [null]. *)
Theorem unmatched_frame_dropped (s : State) (frame : Parsed) :
  frame_is_shape1 frame = false ->
  frame_is_shape2 frame = false ->
  fst (onmessage_event frame s) = s
  /\ snd (onmessage_event frame s)
     = match frame with
       | parse_error => Some SyntaxError
       | parsed_null => Some TypeError
       | parsed_other | parsed_object _ => None
       end.
Proof.
  destruct frame as [| | |data]; cbn; intros S1 S2; split; try reflexivity.
  now apply unmatched_message_dropped.
Qed.

Lemma unmatched_frame_dropped_witness :
  fst (onmessage_event (parsed_object Scenario.status) (onmessage Scenario.shape1 initial))
  = onmessage Scenario.shape1 initial
  /\ snd (onmessage_event (parsed_object Scenario.status) (onmessage Scenario.shape1 initial))
     = None.
Proof.
  exact (unmatched_frame_dropped (onmessage Scenario.shape1 initial)
           (parsed_object Scenario.status) eq_refl eq_refl).
Defined.

(** C10. A truthy [message] field takes precedence over any payload: the
    message changes nothing.  An empty [message] string does not: the message
    is dispatched as if the field were missing, so with [predictions] and a
    transaction it appends both and updates the statistics of the first
    branch, and else with a [prediction] it appends the prediction and, when
    there is a transaction, the transaction with the statistics of the second
    branch. *)
Theorem message_field_precedence (s : State) (data : Data.t) :
  (to_boolean (Data.message data) = true -> onmessage data s = s)
  /\ (Data.message data = val EmptyString ->
      onmessage data s
      = onmessage
          {| Data.message := undefined; Data.predictions := Data.predictions data;
             Data.prediction := Data.prediction data;
             Data.transaction := Data.transaction data |} s
      /\ (forall (p : Prediction) (t : Transaction),
             Data.predictions data = val p -> Data.transaction data = val t ->
             onmessage data s
             = {| predictions := predictions s ++ [p];
                  transactions := transactions s ++ [t];
                  stats :=
                    {| total := total (stats s) + 1;
                       flagged := if isFlaggedAsFraud (val p)
                                  then flagged (stats s) + 1 else flagged (stats s);
                       recentVolume :=
                         (recentVolume (stats s) + lor (ToNumber (Amount t) * 10) 0)%float
                    |} |})
      /\ (forall p : Prediction,
             is_shape1 data = false -> Data.prediction data = val p ->
             predictions (onmessage data s) = predictions s ++ [p]
             /\ match Data.transaction data with
                | val t =>
                    transactions (onmessage data s) = transactions s ++ [t]
                    /\ stats (onmessage data s)
                       = {| total := total (stats s) + 1;
                            flagged := if isFlaggedAsFraud (val p)
                                       then flagged (stats s) + 1 else flagged (stats s);
                            recentVolume :=
                              (recentVolume (stats s) + lor_js (Amount t) 0)%float |}
                | undefined | null =>
                    transactions (onmessage data s) = transactions s
                    /\ stats (onmessage data s) = stats s
                end)).
Proof.
  unfold onmessage. split; [intros H; rewrite H; reflexivity|].
  intros H. rewrite H. cbn [to_boolean ToBoolean_js ToBoolean_string].
  split; [reflexivity|]. split.
  - intros p t P T. rewrite P, T. reflexivity.
  - unfold is_shape1. intros p S1 P. rewrite P.
    destruct (Data.predictions data) as [| |q], (Data.transaction data) as [| |t];
      try discriminate S1; repeat split; reflexivity.
Qed.

Lemma message_field_precedence_witness :
  onmessage (Scenario.shape1_with_status "connected") initial = initial
  /\ onmessage (Scenario.shape1_with_status EmptyString) initial
     = {| predictions := predictions initial ++ [Scenario.votes 0 0 1];
          transactions := transactions initial ++ [Scenario.amount 50];
          stats :=
            {| total := total (stats initial) + 1;
               flagged := if isFlaggedAsFraud (val (Scenario.votes 0 0 1))
                          then flagged (stats initial) + 1 else flagged (stats initial);
               recentVolume :=
                 (recentVolume (stats initial)
                  + lor (ToNumber (Amount (Scenario.amount 50)) * 10) 0)%float |} |}.
Proof.
  split.
  - exact (proj1 (message_field_precedence initial
                    (Scenario.shape1_with_status "connected")) eq_refl).
  - exact (proj1 (proj2 (proj2 (message_field_precedence initial
                                  (Scenario.shape1_with_status EmptyString)) eq_refl))
             (Scenario.votes 0 0 1) (Scenario.amount 50) eq_refl eq_refl).
Defined.

Example empty_status_is_dispatched :
  stats (onmessage (Scenario.shape1_with_status EmptyString) initial)
  = {| total := 1; flagged := 1; recentVolume := 500 |}.
Proof. reflexivity. Qed.

(** *** The two logs *)

Lemma deliver_snoc (messages : list Data.t) (data : Data.t) (s : State) :
  deliver (messages ++ [data]) s = onmessage data (deliver messages s).
Proof. unfold deliver. now rewrite fold_left_app. Qed.

Lemma combine_append {A B : Type} (l1 l2 : list A) (k1 k2 : list B) :
  List.length l1 = List.length k1 ->
  combine (l1 ++ l2) (k1 ++ k2) = combine l1 k1 ++ combine l2 k2.
Proof.
  revert k1. induction l1 as [|a l1 IH]; intros [|b k1]; cbn; try discriminate.
  - reflexivity.
  - intros H. f_equal. apply IH. congruence.
Qed.

(** What one message appends to the logs. *)
Lemma onmessage_logs (s : State) (data : Data.t) :
  predictions (onmessage data s)
  = predictions s ++ map snd (event_of data)
      ++ (if is_bare data
          then match Data.prediction data with val p => [p] | _ => [] end
          else [])
  /\ transactions (onmessage data s) = transactions s ++ map fst (event_of data).
Proof.
  unfold onmessage, event_of, is_bare, is_status, is_shape1, is_shape2.
  dispatch data; cbn; rewrite ?app_nil_r; auto.
Qed.

(** C5, as the counterexample shows it false: after one bare prediction the
    prediction log has one entry and the transaction log has none. *)
Lemma lockstep_broken_by_bare_prediction :
  List.length (predictions (deliver [Scenario.bare] initial)) = 1%nat
  /\ List.length (transactions (deliver [Scenario.bare] initial)) = 0%nat.
Proof. split; reflexivity. Qed.

(** C5, amended.  A message appends one entry to both logs, or to neither, or,
    when it is a bare prediction, one entry to the prediction log alone.  So
    after every sequence of messages the prediction log is longer than the
    transaction log by the number of bare predictions delivered; and when none
    was delivered the two logs have equal length and pair up, position by
    position, the transaction and the prediction of one message. *)
Theorem logs_lockstep_up_to_bare_predictions :
  (forall (s : State) (data : Data.t),
      let s' := onmessage data s in
      if is_bare data
      then List.length (predictions s') = S (List.length (predictions s))
           /\ transactions s' = transactions s
      else (predictions s' = predictions s /\ transactions s' = transactions s)
           \/ (exists p t, predictions s' = predictions s ++ [p]
                           /\ transactions s' = transactions s ++ [t]))
  /\ (forall messages : list Data.t,
      let s := deliver messages initial in
      List.length (predictions s)
      = (List.length (transactions s) + List.length (filter is_bare messages))%nat)
  /\ (forall messages : list Data.t,
      filter is_bare messages = [] ->
      let s := deliver messages initial in
      List.length (predictions s) = List.length (transactions s)
      /\ combine (transactions s) (predictions s) = flat_map event_of messages).
Proof.
  split; [|split].
  - intros s data. cbn zeta.
    destruct (onmessage_logs s data) as [HP HT]. rewrite HP, HT. clear HP HT.
    unfold event_of, is_bare, is_status, is_shape1, is_shape2.
    dispatch data; cbn; rewrite ?app_nil_r, ?length_app; cbn;
      try (split; [lia|reflexivity]); try (now left); right; eauto.
  - intros messages. cbn zeta.
    induction messages as [|data messages IH] using rev_ind; [reflexivity|].
    rewrite deliver_snoc, filter_app, length_app.
    destruct (onmessage_logs (deliver messages initial) data) as [HP HT].
    rewrite HP, HT, !length_app, !length_map, IH. clear HP HT IH. cbn [filter].
    unfold is_bare, is_shape2. destruct (Data.prediction data); cbn;
      rewrite ?andb_false_r; cbn; try lia.
    match goal with |- context [if ?b then _ else _] => destruct b end; cbn; lia.
  - intros messages. cbn zeta.
    induction messages as [|data messages IH] using rev_ind; [intros _; split; reflexivity|].
    rewrite filter_app. intros H. apply app_eq_nil in H. destruct H as [H1 H2].
    destruct (IH H1) as [IHl IHc]. clear IH.
    rewrite deliver_snoc, flat_map_app. cbn [flat_map]. rewrite app_nil_r.
    destruct (onmessage_logs (deliver messages initial) data) as [HP HT].
    rewrite HP, HT. clear HP HT.
    cbn [filter] in H2. destruct (is_bare data); [discriminate|]. rewrite app_nil_r.
    split.
    + rewrite !length_app, !length_map. lia.
    + rewrite combine_append by (symmetry; assumption).
      rewrite IHc. f_equal.
      clear. induction (event_of data) as [|[t p] l IHl]; cbn; congruence.
Qed.

Lemma logs_lockstep_up_to_bare_predictions_witness :
  let s := deliver [Scenario.shape1; Scenario.shape2] initial in
  List.length (predictions s) = List.length (transactions s)
  /\ combine (transactions s) (predictions s)
     = flat_map event_of [Scenario.shape1; Scenario.shape2].
Proof.
  exact (proj2 (proj2 logs_lockstep_up_to_bare_predictions)
           [Scenario.shape1; Scenario.shape2] eq_refl).
Defined.

(** *** The statistics *)

(** What one message does to the statistics: nothing, or one more event whose
    volume contribution is not negative when the amount is not. *)
Lemma onmessage_stats (s : State) (data : Data.t) :
  stats (onmessage data s) = stats s
  \/ exists (b : bool) (c : float),
       stats (onmessage data s)
       = {| total := total (stats s) + 1;
            flagged := if b then flagged (stats s) + 1 else flagged (stats s);
            recentVolume := (recentVolume (stats s) + c)%float |}
       /\ (amount_nonneg data = true -> (0 <=? c)%float = true).
Proof.
  unfold onmessage, amount_nonneg.
  dispatch data; cbn -[isFlaggedAsFraud Z.add]; try (now left); right.
  all: eexists; eexists; (split; [reflexivity|]); intros H.
  all: first [apply shape1_volume_nonneg | apply shape2_volume_nonneg].
  all: match goal with |- context [Amount ?t] => destruct (Amount t); auto end.
Qed.

Lemma leb_refl_nonneg (x : float) : (0 <=? x)%float = true -> (x <=? x)%float = true.
Proof.
  rewrite !leb_spec. unfold SFleb.
  destruct (Prim2SF x) as [sx|sx| |sx mx ex] eqn:E; try discriminate; intros _.
  all: rewrite FloatFacts.SFcompare_refl by congruence; reflexivity.
Qed.

(** The counters and the volume, after any sequence of messages. *)
Lemma deliver_stats_invariant (messages : list Data.t) :
  let st := stats (deliver messages initial) in
  (0 <= flagged st <= total st)%Z
  /\ (forallb amount_nonneg messages = true -> (0 <=? recentVolume st)%float = true).
Proof.
  cbn zeta. induction messages as [|data messages IH] using rev_ind.
  - cbn. split; [lia|reflexivity].
  - rewrite deliver_snoc, forallb_app. cbn [forallb]. rewrite andb_true_r.
    destruct IH as [IHc IHv].
    destruct (onmessage_stats (deliver messages initial) data) as [E|(b & c & E & Hc)];
      rewrite E; clear E.
    + split; [assumption|]. intros H. apply andb_prop in H. tauto.
    + cbn [total flagged recentVolume]. split; [destruct b; lia|].
      intros H. apply andb_prop in H. destruct H as [H1 H2].
      now apply FloatFacts.add_nonneg_mono; auto.
Qed.

(** C9. Along every sequence of messages, a further message never lowers
    [total] or [flagged], leaves [0 <= flagged <= total], raises [flagged] only
    together with [total], and never lowers [recentVolume] when every amount
    present so far is a number that is not negative. *)
Theorem stats_evolve_monotonically (messages : list Data.t) (data : Data.t) :
  let s := deliver messages initial in
  let s' := onmessage data s in
  (total (stats s) <= total (stats s'))%Z
  /\ (flagged (stats s) <= flagged (stats s'))%Z
  /\ (0 <= flagged (stats s') <= total (stats s'))%Z
  /\ ((flagged (stats s) < flagged (stats s'))%Z -> (total (stats s) < total (stats s'))%Z)
  /\ (forallb amount_nonneg (messages ++ [data]) = true ->
      (recentVolume (stats s) <=? recentVolume (stats s'))%float = true).
Proof.
  cbn zeta.
  destruct (deliver_stats_invariant messages) as [Ic Iv]. cbn zeta in Ic, Iv.
  destruct (deliver_stats_invariant (messages ++ [data])) as [Ic' _].
  cbn zeta in Ic'. rewrite deliver_snoc in Ic'.
  rewrite forallb_app. cbn [forallb]. rewrite andb_true_r.
  destruct (onmessage_stats (deliver messages initial) data) as [E|(b & c & E & Hc)];
    rewrite E in *; clear E.
  - repeat split; try lia.
    intros H. apply andb_prop in H. apply leb_refl_nonneg. tauto.
  - cbn [total flagged recentVolume] in *. repeat split; try (destruct b; lia).
    intros H. apply andb_prop in H. destruct H as [H1 H2].
    now apply FloatFacts.add_nonneg_mono; auto.
Qed.

Lemma stats_evolve_monotonically_witness :
  let s := deliver [Scenario.shape2; Scenario.bare] initial in
  let s' := onmessage Scenario.shape1 s in
  (flagged (stats s) < flagged (stats s'))%Z
  /\ (total (stats s) < total (stats s'))%Z
  /\ (recentVolume (stats s) <=? recentVolume (stats s'))%float = true.
Proof.
  pose proof (stats_evolve_monotonically [Scenario.shape2; Scenario.bare] Scenario.shape1)
    as H.
  cbn zeta in H. destruct H as (_ & _ & _ & Hf & Hv).
  cbn zeta. split; [reflexivity|]. split; [exact (Hf eq_refl)|exact (Hv eq_refl)].
Defined.
End Handler.

(** ** The reconnection protocol *)

Section Reconnection.
Import Connector.
Local Open Scope Z_scope.

Lemma run_app (c : Connection) (l1 l2 : list Event) :
  run c (l1 ++ l2) = match run c l1 with Some c' => run c' l2 | None => None end.
Proof.
  revert c. induction l1 as [|e l1 IH]; intros c; cbn; [reflexivity|].
  destruct (step c e); auto.
Qed.

Lemma run_drop (c : Connection) (b : bool) :
  is_live c = true ->
  run c (drop b) = Some (onclose (setSocket CLOSED (if b then onerror c else c))).
Proof.
  unfold is_live, drop. destruct b, c as [st n [] tm]; cbn; try discriminate; reflexivity.
Qed.

(** The state after a drop, by the value of the counter. *)
Lemma onclose_schedules (c : Connection) (b : bool) :
  let c' := onclose (setSocket CLOSED (if b then onerror c else c)) in
  connectionStatus c' = disconnected
  /\ socket c' = CLOSED
  /\ reconnectAttempts c' = reconnectAttempts c
  /\ timer c' = if reconnectAttempts c <? maxReconnectAttempts
                then Some (2 ^ reconnectAttempts c * 1000) else timer c.
Proof.
  cbn zeta. unfold onclose. destruct b; cbn;
    destruct (reconnectAttempts c <? maxReconnectAttempts); cbn; auto.
Qed.

Lemma run_failures (with_error : list bool) : forall c : Connection,
  is_live c = true -> timer c = None -> 0 <= reconnectAttempts c ->
  reconnectAttempts c + Z.of_nat (List.length with_error) <= maxReconnectAttempts ->
  exists c', run c (failures with_error) = Some c'
    /\ is_live c' = true /\ timer c' = None
    /\ reconnectAttempts c' = reconnectAttempts c + Z.of_nat (List.length with_error).
Proof.
  unfold maxReconnectAttempts.
  induction with_error as [|b rest IH]; intros c L T N B.
  - exists c. cbn. repeat split; auto; lia.
  - cbn [failures List.length] in *. rewrite run_app, run_drop by assumption.
    destruct (onclose_schedules c b) as (_ & S' & A' & T'). cbn zeta in *.
    set (c1 := onclose (setSocket CLOSED (if b then onerror c else c))) in *.
    assert (Hlt : (reconnectAttempts c <? maxReconnectAttempts) = true)
      by (apply Z.ltb_lt; unfold maxReconnectAttempts; lia).
    rewrite Hlt in T'. cbn [app run step]. rewrite T'.
    assert (A1 : reconnectAttempts (ontimeout (clearTimer c1)) = reconnectAttempts c + 1)
      by (cbn; lia).
    destruct (IH (ontimeout (clearTimer c1))) as (c' & R & L' & Tm & A);
      try reflexivity; try lia.
    exists c'. rewrite R. repeat split; auto. lia.
Qed.

(** A timer is pending only while the socket is closed: [setTimeout] never
    replaces a pending timer and [connectToServer] never replaces a socket
    that is not closed. *)
Lemma socket_or_timer (events : list Event) : forall c c' : Connection,
  (is_live c = true -> timer c = None) ->
  run c events = Some c' ->
  is_live c' = true -> timer c' = None.
Proof.
  induction events as [|e events IH]; intros c c' I R; cbn in R.
  - now injection R as <-.
  - destruct (step c e) as [c1|] eqn:S; [|discriminate].
    apply (IH c1 c'); [|assumption]. clear IH R.
    unfold is_live in *.
    destruct e, c as [st n [] tm]; cbn in S; try discriminate;
      try (destruct tm; try discriminate); injection S as <-; cbn in *;
      try discriminate; auto.
    all: unfold onclose; cbn; destruct (n <? maxReconnectAttempts); cbn; discriminate.
Qed.

Lemma mount_ready :
  is_live mount = true /\ timer mount = None /\ reconnectAttempts mount = 0.
Proof. repeat split. Qed.

(** C4. From a live socket, an idle timer and a counter at zero (the state on
    mount and after every successful open): the n-th consecutive drop, for n
    from 1 to 5, leaves the state disconnected with a reconnect scheduled
    after 2^(n-1) seconds; the timer firing adds one to the counter and
    connects again; an open sets the counter to zero; and the drop that
    follows five failed retries schedules nothing and leaves a disconnected
    state in which no event can occur any more. *)
Theorem reconnect_backoff :
  (forall (c0 : Connection) (n : nat) (with_error : list bool) (b : bool),
      is_live c0 = true -> timer c0 = None -> reconnectAttempts c0 = 0 ->
      (1 <= n <= 5)%nat -> List.length with_error = (n - 1)%nat ->
      exists c, run c0 (failures with_error ++ drop b) = Some c
        /\ connectionStatus c = disconnected
        /\ timer c = Some (2 ^ (Z.of_nat n - 1) * 1000))
  /\ (forall c c' : Connection,
      step c ev_timeout = Some c' ->
      reconnectAttempts c' = reconnectAttempts c + 1
      /\ connectionStatus c' = connecting /\ is_live c' = true /\ timer c' = None)
  /\ (forall c c' : Connection,
      step c ev_open = Some c' ->
      reconnectAttempts c' = 0 /\ connectionStatus c' = connected
      /\ is_live c' = true /\ timer c' = timer c)
  /\ (forall (c0 : Connection) (with_error : list bool) (b : bool),
      is_live c0 = true -> timer c0 = None -> reconnectAttempts c0 = 0 ->
      List.length with_error = 5%nat ->
      exists c, run c0 (failures with_error ++ drop b) = Some c
        /\ connectionStatus c = disconnected
        /\ timer c = None
        /\ (forall e : Event, step c e = None)
        /\ (forall (events : list Event) (c' : Connection),
               run c events = Some c' -> c' = c)).
Proof.
  split; [|split; [|split]].
  - intros c0 n with_error b L T A Hn Hlen.
    destruct (run_failures with_error c0) as (c1 & R & L1 & T1 & A1);
      auto; try (unfold maxReconnectAttempts; lia).
    rewrite run_app, R, run_drop by assumption.
    destruct (onclose_schedules c1 b) as (St & _ & _ & Tm). cbn zeta in *.
    eexists. split; [reflexivity|]. split; [assumption|].
    rewrite Tm.
    assert (Hlt : (reconnectAttempts c1 <? maxReconnectAttempts) = true)
      by (apply Z.ltb_lt; unfold maxReconnectAttempts; lia).
    rewrite Hlt. do 3 f_equal. lia.
  - intros c c'. cbn. destruct (timer c); [|discriminate].
    intros H. injection H as <-. cbn. auto.
  - intros c c'. cbn. destruct (socket c); try discriminate.
    intros H. injection H as <-. cbn. auto.
  - intros c0 with_error b L T A Hlen.
    destruct (run_failures with_error c0) as (c1 & R & L1 & T1 & A1);
      auto; try (unfold maxReconnectAttempts; lia).
    rewrite run_app, R, run_drop by assumption.
    destruct (onclose_schedules c1 b) as (St & So & _ & Tm). cbn zeta in *.
    set (c := onclose (setSocket CLOSED (if b then onerror c1 else c1))) in *.
    assert (Hge : (reconnectAttempts c1 <? maxReconnectAttempts) = false)
      by (apply Z.ltb_ge; unfold maxReconnectAttempts; lia).
    rewrite Hge, T1 in Tm.
    assert (Hstuck : forall e, step c e = None).
    { intros []; cbn; rewrite ?So, ?Tm; reflexivity. }
    exists c. repeat split; auto.
    intros [|e events] c'; cbn.
    + congruence.
    + now rewrite Hstuck.
Qed.

Lemma reconnect_backoff_witness :
  exists c, run mount (failures [true; false] ++ drop true) = Some c
    /\ connectionStatus c = disconnected
    /\ timer c = Some (2 ^ (Z.of_nat 3 - 1) * 1000).
Proof.
  exact (proj1 reconnect_backoff mount 3%nat [true; false] true
           eq_refl eq_refl eq_refl (conj (le_S _ _ (le_S _ _ (le_n 1))) (le_S _ _ (le_S _ _ (le_n 3))))
           eq_refl).
Defined.

(** The delays of the five drops, in milliseconds, then none. *)
Example backoff_delays :
  map (fun k => option_map timer (run mount (failures (repeat true k) ++ drop true)))
      [0; 1; 2; 3; 4; 5]%nat
  = [Some (Some 1000); Some (Some 2000); Some (Some 4000); Some (Some 8000);
     Some (Some 16000); Some None].
Proof. reflexivity. Qed.
End Reconnection.

(** ** The fraud status that the table and the alert panel display *)

Section Display.
Import Dashboard.

Lemma filter_from_In {A : Type} (f : A -> nat -> bool) (l : list A) :
  forall (k : nat) (a : A),
    In a (filter_from f l k) <-> exists i, nth_error l i = Some a /\ f a (k + i)%nat = true.
Proof.
  induction l as [|x l IH]; intros k a; cbn [filter_from].
  - split; [intros []|]. intros (i & H & _). now destruct i.
  - split.
    + intros H.
      assert (H' : (x = a /\ f x k = true) \/ In a (filter_from f l (S k))).
      { destruct (f x k) eqn:E; [destruct H as [H|H]|]; auto. }
      destruct H' as [[-> E]|H'].
      * exists 0%nat. now rewrite Nat.add_0_r.
      * apply IH in H'. destruct H' as (i & Hi & Hf). exists (S i).
        now rewrite Nat.add_succ_r.
    + intros ([|i] & Hi & Hf); cbn in Hi.
      * injection Hi as ->. rewrite Nat.add_0_r in Hf. rewrite Hf. now left.
      * rewrite Nat.add_succ_r in Hf.
        assert (H' : In a (filter_from f l (S k))) by (apply IH; eauto).
        destruct (f x k); [now right|assumption].
Qed.

(** C6, as the counterexample shows it false: at a position that has a
    prediction with no positive vote, the table shows a transaction labelled
    [Class = 1] as fraudulent, and the alert panel lists a transaction whose
    amount exceeds 1000. *)
Lemma fallback_overrides_prediction :
  nth_error [Scenario.votes 0 0 0] 0 = Some (Scenario.votes 0 0 0)
  /\ isFlaggedAsFraud (val (Scenario.votes 0 0 0)) = false
  /\ TransactionHistory.isFraudulent [Scenario.votes 0 0 0] Scenario.labelled_fraud 0 = true
  /\ FraudAlerts.is_alert [Scenario.votes 0 0 0] Scenario.large_amount 0 = true
  /\ FraudAlerts.fraudulentTransactions [Scenario.large_amount] [Scenario.votes 0 0 0]
     = [Scenario.large_amount].
Proof. repeat split; reflexivity. Qed.

(** C6, amended.  At a position that has a prediction: the table shows the
    transaction as fraudulent exactly when its [Class] is 1 or the
    classification rule holds of the prediction, whatever [V1] and [Amount]
    are; the alert panel lists it exactly when its [Class] is 1, or the rule
    holds of the prediction, or [V1] is below -3, or [Amount] exceeds 1000.
    So a positive classification is never overridden, and a negative one is
    overridden by the label in the table and by the label and the two
    feature tests in the alert panel. *)
Theorem display_status_with_prediction
  (transactions : list Transaction) (predictions : list Prediction)
  (t : Transaction) (i : nat) (p : Prediction) :
  nth_error transactions i = Some t ->
  nth_error predictions i = Some p ->
  TransactionHistory.isFraudulent predictions t i
  = (Class t === 1) || isFlaggedAsFraud (val p)
  /\ FraudAlerts.is_alert predictions t i
     = (Class t === 1) || isFlaggedAsFraud (val p)
       || (defined (V1 t) && lt (V1 t) (-3))
       || (defined (Amount t) && gt (Amount t) 1000)
  /\ (FraudAlerts.is_alert predictions t i = true ->
      In t (FraudAlerts.fraudulentTransactions transactions predictions)).
Proof.
  intros Ht Hp. split; [|split].
  - unfold TransactionHistory.isFraudulent. rewrite Hp. cbn [isFlaggedAsFraud].
    destruct (Class t === 1), (logistic p === 1), (random_forest p === 1), (xgboost p === 1);
      reflexivity.
  - unfold FraudAlerts.is_alert. rewrite Hp. cbn [isFlaggedAsFraud].
    destruct (Class t === 1), (logistic p === 1), (random_forest p === 1), (xgboost p === 1);
      reflexivity.
  - intros H. unfold FraudAlerts.fraudulentTransactions, filter_indexed.
    apply filter_from_In. exists i. split; assumption.
Qed.

Lemma display_status_with_prediction_witness :
  TransactionHistory.isFraudulent [Scenario.votes 0 0 0] Scenario.large_amount 0
  = (Class Scenario.large_amount === 1) || isFlaggedAsFraud (val (Scenario.votes 0 0 0))
  /\ FraudAlerts.is_alert [Scenario.votes 0 0 0] Scenario.large_amount 0
     = (Class Scenario.large_amount === 1) || isFlaggedAsFraud (val (Scenario.votes 0 0 0))
       || (defined (V1 Scenario.large_amount) && lt (V1 Scenario.large_amount) (-3))
       || (defined (Amount Scenario.large_amount) && gt (Amount Scenario.large_amount) 1000)
  /\ (FraudAlerts.is_alert [Scenario.votes 0 0 0] Scenario.large_amount 0 = true ->
      In Scenario.large_amount
         (FraudAlerts.fraudulentTransactions [Scenario.large_amount] [Scenario.votes 0 0 0])).
Proof.
  exact (display_status_with_prediction [Scenario.large_amount] [Scenario.votes 0 0 0]
           Scenario.large_amount 0 (Scenario.votes 0 0 0) eq_refl eq_refl).
Defined.

(** Without a prediction at the position, both fall back on the label and
    the two feature tests. *)
Lemma display_status_without_prediction
  (predictions : list Prediction) (t : Transaction) (i : nat) :
  nth_error predictions i = None ->
  TransactionHistory.isFraudulent predictions t i = FraudAlerts.is_alert predictions t i
  /\ FraudAlerts.is_alert predictions t i
     = (Class t === 1)
       || (defined (V1 t) && lt (V1 t) (-3))
       || (defined (Amount t) && gt (Amount t) 1000).
Proof.
  intros Hp. unfold TransactionHistory.isFraudulent, FraudAlerts.is_alert. rewrite Hp.
  destruct (Class t === 1); split; reflexivity.
Qed.
End Display.

(** ** Anomaly detection *)

Section Anomalies.
Import RealTimeChart.
Variable Math_pow : float -> float -> float.

Lemma fold_left_map_r {A B C : Type} (g : C -> B -> C) (f : A -> B) (l : list A) :
  forall init : C, fold_left (fun s a => g s (f a)) l init = fold_left g (map f l) init.
Proof. induction l as [|a l IH]; intros init; cbn; auto. Qed.

Lemma exceeds_threshold_nil (a : float) : exceeds_threshold Math_pow [] a = false.
Proof.
  unfold exceeds_threshold.
  replace (mean [] + 2 * population_stddev Math_pow [])%float with nan
    by (vm_compute; reflexivity).
  apply FloatFacts.ltb_nan_l.
Qed.

Lemma identifyAnomalies_map (amounts : list float) :
  identifyAnomalies Math_pow amounts
  = map (exceeds_threshold Math_pow (numeric amounts)) amounts.
Proof.
  unfold identifyAnomalies. fold (numeric amounts).
  destruct amounts as [|a0 amounts]; [reflexivity|].
  cbn [List.length Nat.eqb]. set (all := a0 :: amounts).
  destruct (numeric all) as [|v valid] eqn:E.
  - cbn [List.length Nat.eqb]. apply map_ext. intros a.
    now rewrite exceeds_threshold_nil.
  - cbn [List.length Nat.eqb]. apply map_ext. intros a.
    unfold exceeds_threshold, population_stddev, mean, sum, reduce.
    now rewrite <- fold_left_map_r.
Qed.

(** The amounts that the chart passes are all numeric. *)
Lemma amounts_of_numeric (transactions : list Transaction) :
  numeric (amounts_of transactions) = amounts_of transactions.
Proof.
  unfold numeric, amounts_of. induction transactions as [|t l IH]; cbn [map filter];
    [reflexivity|].
  rewrite IH.
  assert (N : isNaN (lor_js (Amount t) 0) = false).
  { unfold isNaN. destruct (Amount t) as [| |a]; try reflexivity. cbn [lor_js].
    unfold lor, to_boolean, ToBoolean_number.
    destruct (is_nan a) eqn:E; [now rewrite orb_true_r|].
    now destruct (is_zero a). }
  now rewrite N.
Qed.

(** C7. The flag at each position says whether the amount there strictly
    exceeds the mean plus twice the population standard deviation of the
    numeric amounts; the result has one flag per amount; and when no amount is
    numeric (the empty list included) every flag is false, the function being
    total. *)
Theorem identifyAnomalies_spec (amounts : list float) :
  (forall i : nat,
      nth_error (identifyAnomalies Math_pow amounts) i
      = option_map (fun a => (mean (numeric amounts)
                               + 2 * population_stddev Math_pow (numeric amounts) <? a)%float)
                   (nth_error amounts i))
  /\ List.length (identifyAnomalies Math_pow amounts) = List.length amounts
  /\ (numeric amounts = [] ->
      identifyAnomalies Math_pow amounts = repeat false (List.length amounts)).
Proof.
  rewrite identifyAnomalies_map. split; [|split].
  - intros i. apply nth_error_map.
  - apply length_map.
  - intros ->. induction amounts as [|a l IH]; cbn [map repeat List.length];
      [reflexivity|].
    now rewrite exceeds_threshold_nil, IH.
Qed.
End Anomalies.

Lemma identifyAnomalies_spec_witness :
  RealTimeChart.identifyAnomalies RealTimeChart.pow_square [nan; nan]
  = repeat false (List.length [nan; nan]).
Proof.
  exact (proj2 (proj2 (identifyAnomalies_spec RealTimeChart.pow_square [nan; nan])) eq_refl).
Defined.

(** One large amount among small ones is flagged. *)
Example anomalies_flagged :
  RealTimeChart.identifyAnomalies RealTimeChart.pow_square [10; 10; 10; 10; 10; 1000]%float
  = [false; false; false; false; false; true].
Proof. vm_compute. reflexivity. Qed.

(** The last scenario of the specification: the mean is 208, the standard
    deviation is 396, the threshold is 1000, which the amount 1000 does not
    strictly exceed: nothing is flagged. *)
Example anomalies_scenario :
  RealTimeChart.mean [10; 10; 10; 10; 1000]%float = 208%float
  /\ RealTimeChart.population_stddev RealTimeChart.pow_square [10; 10; 10; 10; 1000]%float
     = 396%float
  /\ RealTimeChart.identifyAnomalies RealTimeChart.pow_square [10; 10; 10; 10; 1000]%float
     = [false; false; false; false; false].
Proof. vm_compute. repeat split; reflexivity. Qed.

(** * Further properties of the code *)

(** ** The message handler: statistics, metrics and logs *)

Section HandlerMore.
Import Dashboard.

Ltac dispatch data :=
  destruct (to_boolean (Data.message data));
  [| destruct (Data.predictions data) as [| |?q], (Data.transaction data) as [| |?t],
       (Data.prediction data) as [| |?p] ].

Lemma deliver_cons (data : Data.t) (messages : list Data.t) (s : State) :
  deliver (data :: messages) s = deliver messages (onmessage data s).
Proof. reflexivity. Qed.

Lemma onmessage_total (s : State) (data : Data.t) :
  (total (stats (onmessage data s)) + Z.of_nat (List.length (transactions s))
   = total (stats s) + Z.of_nat (List.length (transactions (onmessage data s))))%Z.
Proof.
  unfold onmessage, skip, seq, setPredictions, setTransactions, setStats.
  dispatch data; cbn -[Z.add Z.of_nat]; rewrite ?length_app;
    cbn -[Z.add Z.of_nat]; lia.
Qed.

(** X1. After any sequence of messages the counter [total] is the length of
    the transaction log, the number that the metrics show as the total. *)
Theorem total_counts_transactions (messages : list Data.t) :
  total (stats (deliver messages initial))
  = Z.of_nat (totalTransactions (metrics (deliver messages initial))).
Proof.
  cbn [metrics totalTransactions].
  induction messages as [|data messages IH] using rev_ind; [reflexivity|].
  rewrite deliver_snoc.
  pose proof (onmessage_total (deliver messages initial) data). lia.
Qed.

Lemma onmessage_fraud_count (s : State) (data : Data.t) :
  (Z.of_nat (fraudulentTransactions (metrics (onmessage data s))) + flagged (stats s)
   = Z.of_nat (fraudulentTransactions (metrics s)) + flagged (stats (onmessage data s))
     + if is_bare data && isFlaggedAsFraud (Data.prediction data) then 1 else 0)%Z.
Proof.
  unfold onmessage, skip, seq, setPredictions, setTransactions, setStats.
  unfold is_bare, is_status, is_shape1, is_shape2.
  dispatch data; cbn -[Z.add Z.of_nat]; rewrite ?filter_app, ?length_app;
    cbn -[Z.add Z.of_nat]; try lia.
  all: match goal with
       | |- context [if ?b then _ else _] => destruct b; cbn -[Z.add Z.of_nat]; lia
       end.
Qed.

(** X2. The number of fraudulent transactions that the metrics show (flagged
    entries of the prediction log) is the counter [flagged] plus the number of
    flagged bare predictions delivered: the two agree as long as every
    prediction came with a transaction, and the metric is never the smaller
    one. *)
Theorem fraud_metric_counts_bare_predictions (messages : list Data.t) :
  let s := deliver messages initial in
  Z.of_nat (fraudulentTransactions (metrics s))
  = (flagged (stats s)
     + Z.of_nat (List.length
                   (filter (fun data => is_bare data && isFlaggedAsFraud (Data.prediction data))
                      messages)))%Z.
Proof.
  cbn zeta. induction messages as [|data messages IH] using rev_ind; [reflexivity|].
  rewrite deliver_snoc, filter_app, length_app. cbn [filter].
  pose proof (onmessage_fraud_count (deliver messages initial) data) as H.
  destruct (is_bare data && isFlaggedAsFraud (Data.prediction data));
    cbn [List.length]; lia.
Qed.

Lemma onmessage_not_accepted (s : State) (data : Data.t) :
  accepted data = false -> onmessage data s = s.
Proof.
  unfold accepted, is_status, is_shape1, is_shape2, onmessage.
  dispatch data; cbn; try discriminate; reflexivity.
Qed.

(** X3. Messages that are not accepted (status messages and messages of
    neither shape) can be left out of a session without any difference to the
    state it ends in. *)
Theorem deliver_accepted_only (messages : list Data.t) (s : State) :
  deliver messages s = deliver (filter accepted messages) s.
Proof.
  revert s. induction messages as [|data messages IH]; intros s; [reflexivity|].
  cbn [filter]. destruct (accepted data) eqn:E.
  - rewrite !deliver_cons. apply IH.
  - rewrite deliver_cons, (onmessage_not_accepted s data E). apply IH.
Qed.

(** X4. The logs are append-only: a session leaves every earlier entry of both
    logs in place, adds at most one prediction per message and never more
    transactions than predictions. *)
Theorem logs_append_only (messages : list Data.t) (s : State) :
  exists (ps : list Prediction) (ts : list Transaction),
    predictions (deliver messages s) = predictions s ++ ps
    /\ transactions (deliver messages s) = transactions s ++ ts
    /\ (List.length ts <= List.length ps <= List.length messages)%nat.
Proof.
  induction messages as [|data messages IH] using rev_ind.
  - exists [], []. cbn. rewrite !app_nil_r. repeat split; lia.
  - destruct IH as (ps & ts & HP & HT & HL).
    rewrite deliver_snoc.
    destruct (onmessage_logs (deliver messages s) data) as [HP' HT'].
    rewrite HP', HT', HP, HT, <- !app_assoc. clear HP' HT' HP HT.
    eexists. eexists. split; [reflexivity|]. split; [reflexivity|].
    rewrite !length_app, !length_map.
    unfold event_of, is_bare, is_status, is_shape1, is_shape2.
    dispatch data; cbn; lia.
Qed.

Lemma map_from_In {A B : Type} (f : A -> nat -> B) (l : list A) :
  forall (k : nat) (y : B),
    In y (map_from f l k) <-> exists i a, nth_error l i = Some a /\ y = f a (k + i)%nat.
Proof.
  induction l as [|x l IH]; intros k y; cbn [map_from].
  - split; [intros []|]. intros (i & a & H & _). now destruct i.
  - cbn [In]. rewrite IH. split.
    + intros [H|(i & a & Hi & Hy)].
      * exists 0%nat, x. rewrite Nat.add_0_r. now split.
      * exists (S i), a. now rewrite Nat.add_succ_r.
    + intros ([|i] & a & Hi & Hy); cbn in Hi.
      * injection Hi as ->. rewrite Nat.add_0_r in Hy. now left.
      * right. exists i, a. now rewrite Nat.add_succ_r in Hy.
Qed.

(** X5. The high-risk list has at most five entries, and each of them pairs
    the transaction at some position of the transaction log with the
    prediction at the same position of the prediction log, which is present
    and flagged. *)
Theorem highRiskTransactions_sound (s : State) :
  (List.length (highRiskTransactions s) <= 5)%nat
  /\ forall item : Transaction * js Prediction,
       In item (highRiskTransactions s) ->
       exists (i : nat) (p : Prediction),
         nth_error (transactions s) i = Some (fst item)
         /\ nth_error (predictions s) i = Some p
         /\ snd item = val p
         /\ isFlaggedAsFraud (val p) = true.
Proof.
  unfold highRiskTransactions. split; [apply firstn_le_length|].
  intros item H. apply In_firstn, filter_In in H. destruct H as [H F].
  apply map_from_In in H. destruct H as (i & t & Ht & ->). cbn [fst snd Nat.add] in *.
  unfold array_get in *.
  destruct (nth_error (predictions s) i) as [p|] eqn:Hp; [|discriminate].
  exists i, p. repeat split; assumption.
Qed.

Lemma highRiskTransactions_sound_witness :
  exists (i : nat) (p : Prediction),
    nth_error (transactions (onmessage Scenario.shape1 initial)) i
    = Some (Scenario.amount 50)
    /\ nth_error (predictions (onmessage Scenario.shape1 initial)) i = Some p
    /\ val (Scenario.votes 0 0 1) = val p
    /\ isFlaggedAsFraud (val p) = true.
Proof.
  exact (proj2 (highRiskTransactions_sound (onmessage Scenario.shape1 initial))
           (Scenario.amount 50, val (Scenario.votes 0 0 1)) (or_introl eq_refl)).
Defined.
End HandlerMore.

(** ** The connection in every reachable state *)

Section ConnectionMore.
Import Connector.
Local Open Scope Z_scope.

Lemma step_consistent (c c' : Connection) (e : Event) :
  consistent c -> step c e = Some c' -> consistent c'.
Proof.
  unfold consistent, maxReconnectAttempts, is_live.
  destruct c as [st n sk tm]. cbn [connectionStatus reconnectAttempts socket timer].
  intros (Hn & Hlive & Htm & Hc1 & Hc2 & Hc3) S.
  destruct e, sk; cbn in S; try discriminate;
    try (destruct tm as [d|]; [|discriminate]);
    injection S as <-; unfold onclose, maxReconnectAttempts; cbn.
  all: try (assert (tm = None) as -> by (apply Hlive; reflexivity)).
  all: try (destruct (Htm d eq_refl) as [Hlt Hd]).
  all: try (destruct (Z.ltb_spec n 5); cbn).
  all: repeat split; intros; try discriminate; try congruence; try lia.
  all: try (match goal with H : Some _ = Some _ |- _ => injection H as <- end; lia).
  all: try (match goal with H : Some _ = Some _ |- _ => injection H as <- end; reflexivity).
Qed.

Lemma mount_consistent : consistent mount.
Proof.
  unfold consistent, maxReconnectAttempts. cbn. repeat split; intros; try discriminate; lia.
Qed.

Lemma run_consistent (events : list Event) : forall c c' : Connection,
  consistent c -> run c events = Some c' -> consistent c'.
Proof.
  induction events as [|e events IH]; intros c c' I R; cbn in R.
  - now injection R as <-.
  - destruct (step c e) as [c1|] eqn:S; [|discriminate].
    eauto using step_consistent.
Qed.

(** X6. In every state that the connection reaches after mount: the retry
    counter lies between 0 and 5; a reconnect timer is pending only while the
    socket is closed, so there is never a timer beside a live socket; a
    pending timer was set for [2^counter] seconds, 16 at most; the status
    [connected] is shown only while the socket is open, [connecting] only
    while it is connecting, and a closed socket always shows
    [disconnected]. *)
Theorem connection_invariant (events : list Event) (c : Connection) :
  run mount events = Some c ->
  0 <= reconnectAttempts c <= 5
  /\ (is_live c = true -> timer c = None)
  /\ (forall d, timer c = Some d -> d = 2 ^ reconnectAttempts c * 1000 /\ d <= 16000)
  /\ (connectionStatus c = connected -> socket c = OPEN)
  /\ (connectionStatus c = connecting -> socket c = CONNECTING)
  /\ (socket c = CLOSED -> connectionStatus c = disconnected).
Proof.
  intros R. pose proof (run_consistent events mount c mount_consistent R) as I.
  unfold consistent, maxReconnectAttempts in I.
  destruct I as (Hn & Hlive & Htm & Hc1 & Hc2 & Hc3).
  repeat split; auto; try lia.
  - now apply Htm.
  - destruct (Htm d H) as [Hlt ->].
    change 16000 with (2 ^ 4 * 1000). apply Z.mul_le_mono_nonneg_r; [lia|].
    apply Z.pow_le_mono_r; lia.
Qed.

Lemma connection_invariant_witness :
  exists c, run mount [ev_open; ev_error; ev_close; ev_timeout; ev_close] = Some c
    /\ 0 <= reconnectAttempts c <= 5
    /\ (connectionStatus c = connected -> socket c = OPEN).
Proof.
  eexists. split; [reflexivity|].
  pose proof (connection_invariant [ev_open; ev_error; ev_close; ev_timeout; ev_close] _ eq_refl)
    as (H1 & _ & _ & H4 & _).
  split; [exact H1|exact H4].
Defined.

Lemma run_counts_timeouts (events : list Event) : forall c c' : Connection,
  run c events = Some c' ->
  forallb (fun e => negb (is_open e)) events = true ->
  reconnectAttempts c'
  = reconnectAttempts c + Z.of_nat (List.length (filter is_timeout events)).
Proof.
  induction events as [|e events IH]; intros c c' R N; cbn in R.
  - injection R as <-. cbn. lia.
  - destruct (step c e) as [c1|] eqn:S; [|discriminate].
    cbn [forallb] in N. apply andb_prop in N. destruct N as [Ne N].
    rewrite (IH c1 c' R N). clear IH R N.
    destruct c as [st n sk tm].
    destruct e, sk; cbn in S; try discriminate;
      try (destruct tm as [d|]; [|discriminate]);
      injection S as <-; unfold onclose; cbn -[Z.of_nat Z.add];
      try (destruct (n <? maxReconnectAttempts)); cbn -[Z.of_nat Z.add]; lia.
Qed.

(** X7. The retry counter is the number of times the reconnect timer has fired
    since the last successful open (since mount, when there was none), and
    that number never exceeds five. *)
Theorem retries_since_last_open (before after : list Event) (c : Connection) :
  run mount (before ++ after) = Some c ->
  before = [] \/ (exists earlier, before = earlier ++ [ev_open]) ->
  forallb (fun e => negb (is_open e)) after = true ->
  reconnectAttempts c = Z.of_nat (List.length (filter is_timeout after))
  /\ (List.length (filter is_timeout after) <= 5)%nat.
Proof.
  intros R B N.
  pose proof (run_consistent _ _ _ mount_consistent R) as I.
  rewrite run_app in R. destruct (run mount before) as [c1|] eqn:R1; [|discriminate].
  assert (Z1 : reconnectAttempts c1 = 0).
  { destruct B as [->|[earlier ->]].
    - cbn in R1. now injection R1 as <-.
    - rewrite run_app in R1. destruct (run mount earlier) as [c0|]; [|discriminate].
      cbn in R1. destruct (socket c0); try discriminate. now injection R1 as <-. }
  pose proof (run_counts_timeouts after c1 c R N) as H.
  unfold consistent, maxReconnectAttempts in I. lia.
Qed.

Lemma retries_since_last_open_witness :
  exists c,
    run mount ([ev_close; ev_timeout; ev_open] ++ [ev_close; ev_timeout; ev_error; ev_close])
    = Some c
    /\ reconnectAttempts c
       = Z.of_nat (List.length (filter is_timeout [ev_close; ev_timeout; ev_error; ev_close])).
Proof.
  eexists. split; [reflexivity|].
  exact (proj1 (retries_since_last_open [ev_close; ev_timeout; ev_open]
                  [ev_close; ev_timeout; ev_error; ev_close] _ eq_refl
                  (or_intror (ex_intro _ [ev_close; ev_timeout] eq_refl)) eq_refl)).
Defined.
End ConnectionMore.

(** ** Alert panel, table and chart side by side *)

Section DisplayMore.
Import Dashboard.

(** X8. The reason shown for an alert: the fallback text appears exactly for
    a transaction that is no alert, so no listed alert ever shows it; and the
    ground-truth label takes precedence over every other reason. *)
Theorem getFraudReason_matches_alert
  (predictions : list Prediction) (t : Transaction) (i : nat) :
  (FraudAlerts.getFraudReason predictions t i = "Multiple fraud indicators"%string
   <-> FraudAlerts.is_alert predictions t i = false)
  /\ (FraudAlerts.getFraudReason predictions t i = "Known fraudulent pattern"%string
      <-> (Class t === 1) = true).
Proof.
  unfold FraudAlerts.getFraudReason, FraudAlerts.is_alert.
  destruct (Class t === 1); [split; split; (discriminate || reflexivity)|].
  destruct (nth_error predictions i) as [p|];
    [destruct (logistic p === 1), (random_forest p === 1), (xgboost p === 1)|];
    cbn [orb];
    destruct (defined (V1 t) && lt (V1 t) (-3)),
             (defined (Amount t) && gt (Amount t) 1000);
    split; split; (discriminate || reflexivity).
Qed.

(** X9. Every transaction that the table marks as fraudulent is listed in the
    alert panel. *)
Theorem table_fraud_is_alert
  (transactions : list Transaction) (predictions : list Prediction)
  (t : Transaction) (i : nat) :
  nth_error transactions i = Some t ->
  TransactionHistory.isFraudulent predictions t i = true ->
  FraudAlerts.is_alert predictions t i = true
  /\ In t (FraudAlerts.fraudulentTransactions transactions predictions).
Proof.
  intros Ht H.
  assert (A : FraudAlerts.is_alert predictions t i = true).
  { revert H. unfold TransactionHistory.isFraudulent, FraudAlerts.is_alert.
    destruct (Class t === 1); [reflexivity|].
    destruct (nth_error predictions i) as [p|]; [now intros ->|].
    now intros ->. }
  split; [assumption|].
  unfold FraudAlerts.fraudulentTransactions, filter_indexed.
  apply filter_from_In. exists i. split; assumption.
Qed.

Lemma table_fraud_is_alert_witness :
  FraudAlerts.is_alert [] Scenario.labelled_fraud 0 = true
  /\ In Scenario.labelled_fraud
        (FraudAlerts.fraudulentTransactions [Scenario.labelled_fraud] []).
Proof.
  exact (table_fraud_is_alert [Scenario.labelled_fraud] [] Scenario.labelled_fraud 0
           eq_refl eq_refl).
Defined.





Lemma nth_error_map_from {A B : Type} (f : A -> nat -> B) (l : list A) :
  forall k i : nat,
    nth_error (map_from f l k) i = option_map (fun a => f a (k + i)%nat) (nth_error l i).
Proof.
  induction l as [|x l IH]; intros k [|i]; cbn; try reflexivity.
  - now rewrite Nat.add_0_r.
  - rewrite IH. now rewrite Nat.add_succ_r.
Qed.

Lemma fraudStatus_nth
  (transactions : list Transaction) (predictions : list Prediction) (i : nat) :
  nth_error (RealTimeChart.fraudStatus transactions predictions) i
  = option_map (fun _ => isFlaggedAsFraud (array_get predictions i))
      (nth_error transactions i).
Proof.
  unfold RealTimeChart.fraudStatus, map_indexed.
  rewrite nth_error_map_from. cbn [Nat.add].
  destruct (nth_error transactions i); cbn [option_map]; [|reflexivity].
  unfold array_get. destruct (nth_error predictions i) as [p|]; cbn; [|reflexivity].
  destruct (logistic p === 1), (random_forest p === 1), (xgboost p === 1); reflexivity.
Qed.

(** X11. The chart colours a bar as fraud by the classification rule applied
    to the entry of the prediction log at the bar's position: a transaction
    beyond the end of the prediction log is never coloured as fraud, and there
    is one status per transaction. *)
Theorem chart_fraudStatus_is_the_rule
  (transactions : list Transaction) (predictions : list Prediction) :
  List.length (RealTimeChart.fraudStatus transactions predictions)
  = List.length transactions
  /\ forall i : nat,
       nth_error (RealTimeChart.fraudStatus transactions predictions) i
       = option_map (fun _ => isFlaggedAsFraud (array_get predictions i))
           (nth_error transactions i).
Proof.
  split; [|apply fraudStatus_nth].
  unfold RealTimeChart.fraudStatus, map_indexed.
  generalize 0%nat. induction transactions as [|t l IH]; intros k; cbn; auto.
Qed.

(** X12. The status in a bar's tooltip: [Unknown] beyond the transaction log,
    else [Fraudulent] or [Legitimate]; with a prediction at the position it
    agrees with the colour of the bar; and whenever it says [Fraudulent] the
    table marks the transaction as fraudulent too. *)
Theorem tooltip_status_consistent
  (transactions : list Transaction) (predictions : list Prediction) (i : nat) :
  let status := RealTimeChart.tooltip_fraudStatus transactions predictions i in
  (nth_error transactions i = None -> status = "Unknown"%string)
  /\ forall t : Transaction,
       nth_error transactions i = Some t ->
       (status = "Fraudulent"%string \/ status = "Legitimate"%string)
       /\ (status = "Fraudulent"%string ->
           TransactionHistory.isFraudulent predictions t i = true)
       /\ (forall p : Prediction,
              nth_error predictions i = Some p ->
              (status = "Fraudulent"%string
               <-> nth_error (RealTimeChart.fraudStatus transactions predictions) i
                   = Some true)).
Proof.
  cbn zeta. split.
  - unfold RealTimeChart.tooltip_fraudStatus. now intros ->.
  - intros t Ht.
    rewrite fraudStatus_nth.
    unfold RealTimeChart.tooltip_fraudStatus, TransactionHistory.isFraudulent, array_get.
    rewrite Ht. cbn [option_map].
    destruct (nth_error predictions i) as [p|]; cbn [isFlaggedAsFraud].
    + destruct (Class t === 1), (logistic p === 1), (random_forest p === 1),
        (xgboost p === 1); cbn [orb].
      all: split; [auto|split; [intros; (reflexivity || discriminate)|]].
      all: intros p' _; split; intros; (reflexivity || discriminate).
    + destruct (Class t === 1).
      all: split; [auto|split; [intros; (reflexivity || discriminate)|]].
      all: intros p' Hp'; discriminate.
Qed.

Lemma tooltip_status_consistent_witness :
  RealTimeChart.tooltip_fraudStatus [Scenario.amount 50] [Scenario.votes 0 0 1] 0
  = "Fraudulent"%string
  <-> nth_error (RealTimeChart.fraudStatus [Scenario.amount 50] [Scenario.votes 0 0 1]) 0
      = Some true.
Proof.
  exact (proj2 (proj2 (proj2 (tooltip_status_consistent
                                [Scenario.amount 50] [Scenario.votes 0 0 1] 0)
                               (Scenario.amount 50) eq_refl))
           (Scenario.votes 0 0 1) eq_refl).
Defined.
End DisplayMore.

(** ** The order of binary64 numbers *)

Module FloatOrder.
Local Open Scope Z_scope.

Lemma compare_cont_Eq (p q : positive) : Pos.compare_cont Eq p q = Pos.compare p q.
Proof. reflexivity. Qed.

(** The comparison of two numbers that are not NaN is defined, and swaps with
    its arguments. *)
Lemma SFcompare_antisym (x y : spec_float) (c : comparison) :
  SFcompare x y = Some c -> SFcompare y x = Some (CompOpp c).
Proof.
  destruct x as [sx|sx| |sx mx ex], y as [sy|sy| |sy my ey]; cbn; try discriminate;
    intros H; injection H as <-; f_equal.
  all: try rewrite !compare_cont_Eq, (Z.compare_antisym ex ey), (Pos.compare_antisym mx my).
  all: try destruct sx; try destruct sy; try reflexivity.
  all: destruct (ex ?= ey); cbn; try reflexivity; destruct (mx ?= my); reflexivity.
Qed.

Lemma SFcompare_defined (x y : spec_float) :
  x <> S754_nan -> y <> S754_nan -> exists c, SFcompare x y = Some c.
Proof.
  destruct x as [sx|sx| |sx mx ex], y as [sy|sy| |sy my ey]; cbn; try congruence; eauto.
Qed.

Lemma rank_le_trans r s t : rank_le r s -> rank_le s t -> rank_le r t.
Proof. destruct r as [[? ?] ?], s as [[? ?] ?], t as [[? ?] ?]. cbn. lia. Qed.

Lemma SFleb_rank (x y : spec_float) :
  x <> S754_nan -> y <> S754_nan ->
  (SFleb x y = true <-> rank_le (rank x) (rank y)).
Proof.
  unfold SFleb.
  destruct x as [sx|sx| |sx mx ex], y as [sy|sy| |sy my ey]; try congruence; intros _ _;
    cbn [SFcompare rank].
  all: try (destruct sx; cbn; split; (lia || discriminate || reflexivity)).
  all: try (destruct sy; cbn; split; (lia || discriminate || reflexivity)).
  all: try (destruct sx, sy; cbn; split; (lia || discriminate || reflexivity)).
  rewrite !compare_cont_Eq.
  destruct sx, sy; cbn; try (split; (lia || discriminate || reflexivity)).
  - destruct (Z.compare_spec ex ey); [destruct (Pos.compare_spec mx my)| |]; cbn;
      split; try discriminate; try reflexivity; lia.
  - destruct (Z.compare_spec ex ey); [destruct (Pos.compare_spec mx my)| |]; cbn;
      split; try discriminate; try reflexivity; lia.
Qed.

Lemma SFleb_trans (x y z : spec_float) :
  x <> S754_nan -> y <> S754_nan -> z <> S754_nan ->
  SFleb x y = true -> SFleb y z = true -> SFleb x z = true.
Proof.
  intros Nx Ny Nz. rewrite !SFleb_rank by assumption. apply rank_le_trans.
Qed.

Lemma SFltb_SFleb (x y : spec_float) :
  x <> S754_nan -> y <> S754_nan -> SFltb y x = negb (SFleb x y).
Proof.
  intros Nx Ny. destruct (SFcompare_defined x y Nx Ny) as [c H].
  unfold SFltb, SFleb. rewrite (SFcompare_antisym _ _ _ H), H. now destruct c.
Qed.

Lemma not_nan_Prim2SF (x : float) : is_nan x = false -> Prim2SF x <> S754_nan.
Proof.
  intros H N. apply FloatFacts.is_nan_Prim2SF in N. congruence.
Qed.

(** [<] is asymmetric, on all numbers. *)
Lemma ltb_asym (x y : float) : (x <? y)%float = true -> (y <? x)%float = false.
Proof.
  rewrite !ltb_spec. unfold SFltb.
  destruct (SFcompare (Prim2SF x) (Prim2SF y)) as [[]|] eqn:E; try discriminate.
  intros _. now rewrite (SFcompare_antisym _ _ _ E).
Qed.

(** On numbers that are not NaN, "not greater" is [<=], a total preorder. *)
Lemma not_gt_leb (x y : float) :
  is_nan x = false -> is_nan y = false -> (y <? x)%float = negb (x <=? y)%float.
Proof.
  intros Nx Ny. rewrite ltb_spec, leb_spec. apply SFltb_SFleb; now apply not_nan_Prim2SF.
Qed.

Lemma leb_trans (x y z : float) :
  is_nan x = false -> is_nan y = false -> is_nan z = false ->
  (x <=? y)%float = true -> (y <=? z)%float = true -> (x <=? z)%float = true.
Proof.
  intros Nx Ny Nz. rewrite !leb_spec. apply SFleb_trans; now apply not_nan_Prim2SF.
Qed.
End FloatOrder.

(** ** Stable insertion sort *)

Section SortFacts.
Context {A : Type} (compareFn : A -> A -> Z).

Lemma insert_sorted_perm (x : A) (l : list A) : Permutation (insert_sorted compareFn x l) (x :: l).
Proof.
  induction l as [|y l IH]; cbn; [reflexivity|].
  destruct (compareFn y x <=? 0)%Z; [|reflexivity].
  rewrite IH. apply perm_swap.
Qed.

Lemma sort_perm (l : list A) : Permutation (sort compareFn l) l.
Proof.
  unfold sort. change l with ([] ++ l) at 2. generalize (@nil A).
  induction l as [|x l IH]; intros acc; cbn [fold_left].
  - now rewrite app_nil_r.
  - rewrite IH, insert_sorted_perm. apply Permutation_middle.
Qed.

Variable P : A -> Prop.
Hypothesis le_total : forall a b, P a -> P b -> ~ (compareFn a b <= 0)%Z -> (compareFn b a <= 0)%Z.
Hypothesis le_trans : forall a b c, P a -> P b -> P c -> (compareFn a b <= 0)%Z -> (compareFn b c <= 0)%Z -> (compareFn a c <= 0)%Z.

Lemma insert_sorted_sorted (x : A) (l : list A) :
  P x -> Forall P l -> StronglySorted (fun a b => (compareFn a b <= 0)%Z) l -> StronglySorted (fun a b => (compareFn a b <= 0)%Z) (insert_sorted compareFn x l).
Proof.
  intros Px. induction l as [|y l IH]; intros Pl Sl; cbn.
  - repeat constructor.
  - apply Forall_cons_iff in Pl. destruct Pl as [Py Pl].
    apply StronglySorted_inv in Sl. destruct Sl as [Sl Hy].
    destruct (Z.leb_spec (compareFn y x) 0) as [Hle|Hgt].
    + constructor; [now apply IH|].
      apply (Permutation_Forall (Permutation_sym (insert_sorted_perm x l))).
      now constructor.
    + assert (Hxy : (compareFn x y <= 0)%Z) by (apply le_total; auto; lia).
      constructor; [now constructor|].
      constructor; [assumption|].
      rewrite Forall_forall in *. intros z Hz. apply (le_trans x y z); auto.
Qed.

Lemma sort_sorted (l : list A) : Forall P l -> StronglySorted (fun a b => (compareFn a b <= 0)%Z) (sort compareFn l).
Proof.
  unfold sort.
  assert (G : forall acc, Forall P acc -> StronglySorted (fun a b => (compareFn a b <= 0)%Z) acc -> Forall P l ->
                StronglySorted (fun a b => (compareFn a b <= 0)%Z)
                  (fold_left (fun sorted x => insert_sorted compareFn x sorted) l acc)).
  { induction l as [|x l IH]; intros acc Pa Sa Pl; cbn [fold_left]; [assumption|].
    apply Forall_cons_iff in Pl. destruct Pl as [Px Pl].
    apply IH; [|now apply insert_sorted_sorted|assumption].
    apply (Permutation_Forall (Permutation_sym (insert_sorted_perm x acc))).
    now constructor. }
  intros Pl. apply G; auto. constructor.
Qed.
End SortFacts.

(** ** The table: sorting and pages *)

Section TableMore.
Import TransactionHistory.
Import FloatOrder.

Lemma asc_le (u v : float) :
  is_nan u = false -> is_nan v = false ->
  ((if (u <? v)%float then -1 else if (v <? u)%float then 1 else 0) <= 0)%Z
  <-> (u <=? v)%float = true.
Proof.
  intros Nu Nv. rewrite (not_gt_leb u v Nu Nv).
  destruct (u <? v)%float eqn:E.
  - apply ltb_asym in E. rewrite (not_gt_leb u v Nu Nv) in E.
    destruct (u <=? v)%float; [|discriminate]. split; [reflexivity|lia].
  - destruct (u <=? v)%float; cbn; split; (reflexivity || discriminate || lia).
Qed.

Lemma desc_le (u v : float) :
  is_nan u = false -> is_nan v = false ->
  ((if (u <? v)%float then 1 else if (v <? u)%float then -1 else 0) <= 0)%Z
  <-> (v <=? u)%float = true.
Proof.
  intros Nu Nv. rewrite (not_gt_leb v u Nv Nu).
  destruct (v <=? u)%float; cbn.
  - destruct (v <? u)%float; split; (reflexivity || lia).
  - split; (discriminate || lia).
Qed.

Lemma compareFn_antisym (f : SortField) (d : SortDirection) (a b : Transaction) :
  compareFn f d b a = (- compareFn f d a b)%Z
  /\ compareFn f desc a b = (- compareFn f asc a b)%Z
  /\ (-1 <= compareFn f d a b <= 1)%Z.
Proof.
  unfold compareFn.
  destruct (field f a) as [| |x], (field f b) as [| |y]; cbn [defined negb andb];
    try (destruct d; repeat split; (reflexivity || lia)).
  all: match goal with
       | |- context [PrimFloat.ltb ?u ?v] =>
           destruct (PrimFloat.ltb u v) eqn:E1;
           [try rewrite (ltb_asym u v E1)|destruct (PrimFloat.ltb v u)]
       end;
       try (vm_compute in E1; discriminate E1);
       destruct d; repeat split; (reflexivity || lia).
Qed.

(** X13. The comparator of the table is consistent: swapping its arguments
    negates the result, the descending comparator is the negation of the
    ascending one, and the result is -1, 0 or 1. *)
Theorem compareFn_consistent (f : SortField) (d : SortDirection) (a b : Transaction) :
  compareFn f d b a = (- compareFn f d a b)%Z
  /\ compareFn f desc a b = (- compareFn f asc a b)%Z
  /\ (-1 <= compareFn f d a b <= 1)%Z.
Proof. apply compareFn_antisym. Qed.

Lemma compareFn_total (f : SortField) (d : SortDirection) (a b : Transaction) :
  ~ (compareFn f d a b <= 0)%Z -> (compareFn f d b a <= 0)%Z.
Proof.
  destruct (compareFn_antisym f d a b) as (-> & _ & _). lia.
Qed.

Lemma compareFn_trans (f : SortField) (d : SortDirection) (a b c : Transaction) :
  numeric_field f a -> numeric_field f b -> numeric_field f c ->
  (compareFn f d a b <= 0)%Z -> (compareFn f d b c <= 0)%Z -> (compareFn f d a c <= 0)%Z.
Proof.
  unfold compareFn, numeric_field.
  destruct (field f a) as [| |x], (field f b) as [| |y], (field f c) as [| |z];
    cbn [defined negb andb ToNumber]; intros Na Nb Nc; destruct d; try lia.
  all: try (rewrite !asc_le by (assumption || reflexivity);
            apply leb_trans; (assumption || reflexivity)).
  all: rewrite !desc_le by (assumption || reflexivity);
       intros H1 H2; revert H2 H1; apply leb_trans; (assumption || reflexivity).
Qed.

Lemma compareFn_in_order (f : SortField) (d : SortDirection) (a b : Transaction) :
  numeric_field f a -> numeric_field f b ->
  (compareFn f d a b <= 0)%Z <-> in_order f d a b.
Proof.
  unfold compareFn, in_order, value_le, numeric_field.
  destruct (field f a) as [| |x], (field f b) as [| |y];
    cbn [defined negb andb ToNumber]; intros Na Nb; destruct d;
    try (split; [intros _; exact I|lia]);
    try (split; [lia|intros []]).
  all: first [apply asc_le|apply desc_le]; (assumption || reflexivity).
Qed.

Lemma StronglySorted_impl {A : Type} (P : A -> Prop) (R R' : A -> A -> Prop) (l : list A) :
  (forall a b, P a -> P b -> R a b -> R' a b) ->
  Forall P l -> StronglySorted R l -> StronglySorted R' l.
Proof.
  intros HR. induction l as [|x l IH]; intros Pl Sl; [constructor|].
  apply Forall_cons_iff in Pl. destruct Pl as [Px Pl].
  apply StronglySorted_inv in Sl. destruct Sl as [Sl Hx].
  constructor; [now apply IH|].
  rewrite Forall_forall in *. intros y Hy. apply HR; auto.
Qed.

Lemma sortedTransactions_compareFn (v : View) (transactions : list Transaction) :
  Forall (numeric_field (sortField v)) transactions ->
  StronglySorted
    (fun a b => (compareFn (sortField v) (sortDirection v) a b <= 0)%Z)
    (sortedTransactions v transactions).
Proof.
  unfold sortedTransactions.
  apply (sort_sorted _ (numeric_field (sortField v))).
  - intros a b _ _. apply compareFn_total.
  - apply compareFn_trans.
Qed.

(** X14. The rows of the table are the transactions of the log, each as often
    as it occurs there; and when every value of the sort column that is
    present is a number, the rows are in the order chosen: in ascending
    direction every row without a value stands before every row with one, and
    the rows with a value stand by increasing value; in descending direction
    the rows stand by decreasing value, and every row without a value stands
    after them. *)
Theorem sortedTransactions_sorted (v : View) (transactions : list Transaction) :
  Permutation (sortedTransactions v transactions) transactions
  /\ (Forall (numeric_field (sortField v)) transactions ->
      StronglySorted (in_order (sortField v) (sortDirection v))
        (sortedTransactions v transactions)
      /\ forall (before after : list Transaction) (a b : Transaction),
           sortedTransactions v transactions = before ++ a :: after ->
           In b after ->
           match sortDirection v, field (sortField v) a, field (sortField v) b with
           | asc, undefined, _ => True
           | asc, _, undefined => False
           | asc, x, y => (ToNumber x <=? ToNumber y)%float = true
           | desc, _, undefined => True
           | desc, undefined, _ => False
           | desc, x, y => (ToNumber y <=? ToNumber x)%float = true
           end).
Proof.
  assert (HP : Permutation (sortedTransactions v transactions) transactions)
    by apply sort_perm.
  split; [assumption|]. intros N.
  assert (S : StronglySorted (in_order (sortField v) (sortDirection v))
                (sortedTransactions v transactions)).
  { apply (StronglySorted_impl (numeric_field (sortField v))
             (fun a b => (compareFn (sortField v) (sortDirection v) a b <= 0)%Z)).
    - intros a b Pa Pb. now apply compareFn_in_order.
    - apply (Permutation_Forall (Permutation_sym HP)), N.
    - now apply sortedTransactions_compareFn. }
  split; [assumption|].
  intros before after a b E Hb. rewrite E in S. clear E.
  induction before as [|x before IH]; cbn [app] in S;
    apply StronglySorted_inv in S; destruct S as [S F]; [|now apply IH].
  rewrite Forall_forall in F. specialize (F b Hb).
  unfold in_order, value_le in F.
  destruct (sortDirection v), (field (sortField v) a), (field (sortField v) b);
    assumption.
Qed.

Lemma sortedTransactions_sorted_witness :
  StronglySorted (in_order sortAmount asc)
    (sortedTransactions {| sortField := sortAmount; sortDirection := asc; currentPage := 1 |}
       [Scenario.amount 200; Scenario.unpriced; Scenario.amount 50])
  /\ sortedTransactions {| sortField := sortAmount; sortDirection := asc; currentPage := 1 |}
       [Scenario.amount 200; Scenario.unpriced; Scenario.amount 50]
     = [Scenario.unpriced; Scenario.amount 50; Scenario.amount 200].
Proof.
  split; [|reflexivity].
  apply (proj2 (sortedTransactions_sorted
                  {| sortField := sortAmount; sortDirection := asc; currentPage := 1 |}
                  [Scenario.amount 200; Scenario.unpriced; Scenario.amount 50])).
  repeat constructor.
Defined.

Example missing_amount_last_when_descending :
  sortedTransactions {| sortField := sortAmount; sortDirection := desc; currentPage := 1 |}
    [Scenario.amount 50; Scenario.unpriced; Scenario.amount 200]
  = [Scenario.amount 200; Scenario.amount 50; Scenario.unpriced].
Proof. reflexivity. Qed.

Example sorted_by_amount_desc :
  sortedTransactions {| sortField := sortAmount; sortDirection := desc; currentPage := 1 |}
    [Scenario.amount 50; Scenario.labelled_fraud; Scenario.amount 200; Scenario.amount 50]
  = [Scenario.amount 200; Scenario.amount 50; Scenario.labelled_fraud; Scenario.amount 50].
Proof. reflexivity. Qed.

Lemma firstn_skipn_add {A : Type} (l : list A) : forall n m : nat,
  firstn n l ++ firstn m (skipn n l) = firstn (n + m) l.
Proof.
  induction l as [|x l IH]; intros [|n] m; cbn; try reflexivity.
  - now rewrite firstn_nil.
  - now rewrite IH.
Qed.

Lemma pages_concat {A : Type} (l : list A) (size : nat) : forall pages : nat,
  flat_map (fun p => slice ((p - 1) * size) (p * size) l) (seq 1 pages)
  = firstn (pages * size) l.
Proof.
  induction pages as [|k IH]; [reflexivity|].
  rewrite seq_S, flat_map_app, IH. cbn [flat_map Nat.add]. rewrite app_nil_r.
  unfold slice. replace (S k - 1)%nat with k by lia.
  replace (S k * size - k * size)%nat with size by lia.
  rewrite firstn_skipn_add. f_equal. lia.
Qed.

Lemma totalPages_bounds (transactions : list Transaction) :
  (List.length transactions <= totalPages transactions * itemsPerPage
   < List.length transactions + itemsPerPage)%nat.
Proof.
  unfold totalPages, itemsPerPage. cbn [Nat.sub].
  pose proof (Nat.div_mod_eq (List.length transactions + 9) 10).
  pose proof (Nat.mod_upper_bound (List.length transactions + 9) 10). lia.
Qed.

Lemma sortedTransactions_length (v : View) (transactions : list Transaction) :
  List.length (sortedTransactions v transactions) = List.length transactions.
Proof. apply Permutation_length, sort_perm. Qed.

Lemma page_empty_iff (v : View) (transactions : list Transaction) :
  paginatedTransactions v transactions = []
  <-> ~ (1 <= currentPage v <= totalPages transactions)%nat.
Proof.
  pose proof (totalPages_bounds transactions) as B.
  pose proof (sortedTransactions_length v transactions) as L.
  unfold paginatedTransactions, sortedTransactions, itemsPerPage, slice in *.
  rewrite <- length_zero_iff_nil, length_firstn, length_skipn. lia.
Qed.

(** X15. The pages of the table: a page has at most ten rows; the pages 1 to
    [totalPages], one after the other, are the sorted rows, so every row is on
    exactly one page; a page is empty exactly when its number is not between 1
    and [totalPages]. *)
Theorem pages_partition_rows (v : View) (transactions : list Transaction) :
  (List.length (paginatedTransactions v transactions) <= itemsPerPage)%nat
  /\ flat_map (fun p => paginatedTransactions (at_page p v) transactions)
       (seq 1 (totalPages transactions))
     = sortedTransactions v transactions
  /\ (paginatedTransactions v transactions = []
      <-> ~ (1 <= currentPage v <= totalPages transactions)%nat).
Proof.
  pose proof (totalPages_bounds transactions) as B.
  pose proof (sortedTransactions_length v transactions) as L.
  unfold paginatedTransactions, at_page, sortedTransactions in *.
  cbn [currentPage sortField sortDirection].
  set (rows := sort (compareFn (sortField v) (sortDirection v)) transactions) in *.
  unfold itemsPerPage in *. split; [|split].
  - unfold slice. rewrite length_firstn. lia.
  - rewrite (pages_concat rows 10). apply firstn_all2. lia.
  - apply (page_empty_iff v transactions).
Qed.

(** X16. The current page stays one of the pages on offer: it is so at first,
    and it stays so under a click on either page button, under a click on a
    column header, and when further transactions arrive.  So with at least
    one transaction the page shown is never empty. *)
Theorem current_page_stays_valid (v : View) (transactions : list Transaction) :
  valid_page initial_view transactions
  /\ (valid_page v transactions ->
      valid_page (click_previous v) transactions
      /\ valid_page (click_next (totalPages transactions) v) transactions
      /\ (forall f, valid_page (handleSort f v) transactions)
      /\ (forall more, valid_page v (transactions ++ more))
      /\ (transactions <> [] -> paginatedTransactions v transactions <> [])).
Proof.
  unfold valid_page. split; [cbn [initial_view currentPage]; lia|].
  intros V. split; [|split; [|split; [|split]]].
  - unfold click_previous.
    destruct (Nat.eqb_spec (currentPage v) 1); cbn [currentPage orb]; lia.
  - unfold click_next.
    destruct (Nat.eqb_spec (currentPage v) (totalPages transactions));
      destruct (Nat.eqb_spec (totalPages transactions) 0); cbn [currentPage orb]; lia.
  - intros f. unfold handleSort.
    destruct (same_field f (sortField v)); cbn [currentPage]; lia.
  - intros more.
    assert (totalPages transactions <= totalPages (transactions ++ more))%nat; [|lia].
    unfold totalPages. rewrite length_app. apply Nat.Div0.div_le_mono. lia.
  - intros NE E.
    apply (proj1 (page_empty_iff v transactions)) in E.
    apply E.
    assert (1 <= totalPages transactions)%nat; [|lia].
    pose proof (totalPages_bounds transactions).
    destruct transactions; [congruence|]. cbn [List.length] in *.
    destruct (totalPages (t :: transactions)); lia.
Qed.

Lemma current_page_stays_valid_witness :
  valid_page (click_next (totalPages (repeat (Scenario.amount 50) 25))
                (click_next (totalPages (repeat (Scenario.amount 50) 25)) initial_view))
    (repeat (Scenario.amount 50) 25).
Proof.
  apply (proj2 (current_page_stays_valid _ _)).
  apply (proj2 (current_page_stays_valid _ _)).
  exact (proj1 (current_page_stays_valid initial_view _)).
Defined.

(** X17. A click on the header of the current sort column reverses the order
    (the comparator is negated) and a second click restores the view; a click
    on the other header sorts by that column, ascending; the current page is
    kept in both cases. *)
Theorem handleSort_toggles (f : SortField) (v : View) :
  (same_field f (sortField v) = true ->
   (forall a b, compareFn (sortField (handleSort f v)) (sortDirection (handleSort f v)) a b
                = (- compareFn (sortField v) (sortDirection v) a b)%Z)
   /\ handleSort f (handleSort f v) = v)
  /\ (same_field f (sortField v) = false ->
      sortField (handleSort f v) = f /\ sortDirection (handleSort f v) = asc)
  /\ currentPage (handleSort f v) = currentPage v.
Proof.
  unfold handleSort. destruct v as [g d p]. cbn [sortField sortDirection currentPage].
  destruct (same_field f g) eqn:E; cbn [sortField sortDirection currentPage];
    (split; [|split]); try discriminate; try reflexivity; intros _.
  - rewrite E. cbn [sortField sortDirection currentPage]. split.
    + intros a b. destruct (compareFn_antisym g d a b) as (_ & H & _).
      destruct d; [|rewrite H]; lia.
    + now destruct d.
  - split; reflexivity.
Qed.

Lemma handleSort_toggles_witness :
  handleSort sortTime (handleSort sortTime initial_view) = initial_view.
Proof.
  exact (proj2 (proj1 (handleSort_toggles sortTime initial_view) eq_refl)).
Defined.
End TableMore.

(** ** Anomaly detection as the chart uses it *)

Section AnomaliesMore.
Import RealTimeChart.
Variable Math_pow : float -> float -> float.

Lemma ltb_nan_r (x y : float) : is_nan y = true -> (x <? y)%float = false.
Proof.
  intros N. apply FloatFacts.is_nan_Prim2SF in N. rewrite ltb_spec, N.
  unfold SFltb. now destruct (Prim2SF x).
Qed.

(** X18. In the chart a missing, zero or non-numeric amount counts as the
    amount 0: the flag of each transaction compares its amount, so read, with
    the mean plus twice the standard deviation over the amounts of all
    transactions, none left out. *)
Theorem chart_anomalies_over_all_amounts (transactions : list Transaction) (i : nat) :
  numeric (amounts_of transactions) = amounts_of transactions
  /\ nth_error (identifyAnomalies Math_pow (amounts_of transactions)) i
     = option_map
         (fun t => (mean (amounts_of transactions)
                    + 2 * population_stddev Math_pow (amounts_of transactions)
                    <? lor_js (Amount t) 0)%float)
         (nth_error transactions i).
Proof.
  split; [apply amounts_of_numeric|].
  rewrite identifyAnomalies_map, amounts_of_numeric, nth_error_map.
  assert (E : nth_error (amounts_of transactions) i
              = option_map (fun t => lor_js (Amount t) 0) (nth_error transactions i))
    by apply nth_error_map.
  rewrite E. now destruct (nth_error transactions i).
Qed.

(** X19. An amount that is NaN is never flagged as an anomaly, whatever the
    other amounts are. *)
Theorem nan_amount_never_anomalous (amounts : list float) (i : nat) (a : float) :
  nth_error amounts i = Some a ->
  is_nan a = true ->
  nth_error (identifyAnomalies Math_pow amounts) i = Some false.
Proof.
  intros Ha N. rewrite identifyAnomalies_map, nth_error_map, Ha. cbn [option_map].
  unfold exceeds_threshold. now rewrite ltb_nan_r.
Qed.
End AnomaliesMore.

Lemma nan_amount_never_anomalous_witness :
  nth_error (RealTimeChart.identifyAnomalies RealTimeChart.pow_square [10; nan; 1000]%float) 1
  = Some false.
Proof.
  exact (nan_amount_never_anomalous RealTimeChart.pow_square [10; nan; 1000]%float 1 nan
           eq_refl eq_refl).
Defined.

(** ** The two volume scalings *)

Section VolumeMore.
Import Dashboard.
Import FloatFacts.

Lemma is_zero_Prim2SF (x : float) :
  is_zero x = true <-> exists s, Prim2SF x = S754_zero s.
Proof.
  unfold is_zero. rewrite eqb_spec. change (Prim2SF zero) with (S754_zero false).
  destruct (Prim2SF x) as [s|[]| |[] m e]; cbn; split; try discriminate; eauto.
  all: intros [s H]; discriminate.
Qed.

Lemma falsy_mul10 (a : float) : to_boolean a = false -> to_boolean (a * 10)%float = false.
Proof.
  unfold to_boolean, ToBoolean_number. rewrite !negb_false_iff, !orb_true_iff.
  intros [Z|N].
  - left. apply is_zero_Prim2SF in Z. destruct Z as [s Z].
    apply is_zero_Prim2SF. exists s. exact (mul_finite_zero a 10 s _ _ Prim2SF_10 Z).
  - right. apply is_nan_Prim2SF in N. apply is_nan_Prim2SF. now rewrite mul_spec, N.
Qed.

Lemma volume_contributions (v : js float) :
  (lor (ToNumber v * 10) 0 =? lor_js v 0 * 10)%float = true.
Proof.
  destruct v as [| |a]; try reflexivity. cbn [ToNumber lor_js].
  unfold lor at 2. destruct (to_boolean a) eqn:T.
  - apply lor_numeric, mul10_not_nan.
    unfold to_boolean, ToBoolean_number in T.
    destruct (is_nan a); [now rewrite orb_true_r in T|reflexivity].
  - unfold lor. now rewrite (falsy_mul10 a T).
Qed.

(** X20. The same transaction adds ten times as much to [recentVolume] when it
    arrives with [predictions] as when it arrives with [prediction]. *)
Theorem shape1_volume_is_ten_times_shape2
  (s : State) (d1 d2 : Data.t) (p1 p2 : Prediction) (t : Transaction) :
  is_status d1 = false -> Data.predictions d1 = val p1 -> Data.transaction d1 = val t ->
  is_status d2 = false -> Data.predictions d2 = undefined -> Data.prediction d2 = val p2 ->
  Data.transaction d2 = val t ->
  exists c1 c2 : float,
    recentVolume (stats (onmessage d1 s)) = (recentVolume (stats s) + c1)%float
    /\ recentVolume (stats (onmessage d2 s)) = (recentVolume (stats s) + c2)%float
    /\ (c1 =? c2 * 10)%float = true.
Proof.
  unfold is_status. intros M1 P1 T1 M2 Q2 P2 T2.
  unfold onmessage. rewrite M1, P1, T1, M2, Q2, P2, T2.
  eexists. eexists. split; [reflexivity|]. split; [reflexivity|].
  apply volume_contributions.
Qed.

Lemma shape1_volume_is_ten_times_shape2_witness :
  exists c1 c2 : float,
    recentVolume (stats (onmessage Scenario.shape1 initial))
    = (recentVolume (stats initial) + c1)%float
    /\ recentVolume
         (stats (onmessage
                   {| Data.message := undefined; Data.predictions := undefined;
                      Data.prediction := val (Scenario.votes 0 0 1);
                      Data.transaction := val (Scenario.amount 50) |} initial))
       = (recentVolume (stats initial) + c2)%float
    /\ (c1 =? c2 * 10)%float = true.
Proof.
  exact (shape1_volume_is_ten_times_shape2 initial Scenario.shape1
           {| Data.message := undefined; Data.predictions := undefined;
              Data.prediction := val (Scenario.votes 0 0 1);
              Data.transaction := val (Scenario.amount 50) |}
           (Scenario.votes 0 0 1) (Scenario.votes 0 0 1) (Scenario.amount 50)
           eq_refl eq_refl eq_refl eq_refl eq_refl eq_refl eq_refl).
Defined.
End VolumeMore.
